(** * tradezero_api: a shallow embedding of [TradeZero] (src/tradezero_api/main.py)

    The class drives a browser.  Everything the methods read from the page is
    taken from a [World] (one field per element read, indexed by the position
    of the read inside its polling loop); everything they do to the page is
    appended to a trace of [action]s.  A method is a computation in the monad
    [M]: it ends with a returned Python value, a raised exception, or it is
    still inside an unbounded [while] loop when the fuel runs out.  The
    methods are taken with [log_info] and [debug_info] at their default,
    [False], and the elements with fixed ids are taken to be on the page.

    Python [float] is IEEE 754 binary64, which is Rocq's primitive [float];
    Python [int] is [Z]; Python [str] is [string], page texts being taken
    to be ASCII. *)

From Stdlib Require Import ZArith NArith List String Ascii Bool Lia Floats.
Import ListNotations.

Local Open Scope string_scope.
Local Open Scope list_scope.

(* ================================================================== *)
(** ** Python strings *)

Module PyStr.

Definition is_upper (c : ascii) : bool :=
  let n := nat_of_ascii c in (65 <=? n)%nat && (n <=? 90)%nat.

Definition is_lower (c : ascii) : bool :=
  let n := nat_of_ascii c in (97 <=? n)%nat && (n <=? 122)%nat.

Definition is_digit (c : ascii) : bool :=
  let n := nat_of_ascii c in (48 <=? n)%nat && (n <=? 57)%nat.

Definition upper_char (c : ascii) : ascii :=
  if is_lower c then ascii_of_nat (nat_of_ascii c - 32) else c.

Definition lower_char (c : ascii) : ascii :=
  if is_upper c then ascii_of_nat (nat_of_ascii c + 32) else c.

Fixpoint map_chars (f : ascii -> ascii) (s : string) : string :=
  match s with
  | EmptyString => EmptyString
  | String c s' => String (f c) (map_chars f s')
  end.

(** [str.upper()] and [str.lower()]. *)
Definition upper : string -> string := map_chars upper_char.
Definition lower : string -> string := map_chars lower_char.

(** [s.replace(old, '')] for a non-empty [old]: the occurrences of [old]
    are removed from left to right, without overlap.  [skip] counts the
    characters of a match that are still to be dropped. *)
Fixpoint remove_from (old : string) (skip : nat) (s : string) : string :=
  match s with
  | EmptyString => EmptyString
  | String c s' =>
      match skip with
      | S k => remove_from old k s'
      | O => if prefix old s
             then remove_from old (String.length old - 1) s'
             else String c (remove_from old 0 s')
      end
  end.

Definition remove (old s : string) : string := remove_from old 0 s.

Fixpoint all_digits (s : string) : bool :=
  match s with
  | EmptyString => true
  | String c s' => is_digit c && all_digits s'
  end.

(** [str.isdigit()]: at least one character, and all of them digits. *)
Definition isdigit (s : string) : bool :=
  match s with
  | EmptyString => false
  | _ => all_digits s
  end.

Definition digit_val (c : ascii) : N := N.of_nat (nat_of_ascii c - 48).

Fixpoint digits_acc (acc : N) (s : string) : N :=
  match s with
  | EmptyString => acc
  | String c s' => digits_acc (10 * acc + digit_val c) s'
  end.

(** The number a string of digits denotes.  [float(price)] of such a
    string is the binary64 nearest to it, which is zero exactly when the
    number is, and positive exactly when the number is: the two tests
    [float(price) == 0] and [float(price) > 0] of [load_symbol] are made
    on this number. *)
Definition digits_value (s : string) : N := digits_acc 0 s.

Fixpoint mem (x : string) (l : list string) : bool :=
  match l with
  | [] => false
  | y :: l' => (x =? y) || mem x l'
  end.

End PyStr.

(* ================================================================== *)
(** ** Python floats and integers *)

Module PyNum.

(** [a % 100 != 0] on integers: Python's [%] takes the sign of the
    divisor, as [Z.modulo] does. *)
Definition not_divisible_by_100 (a : Z) : bool := negb (a mod 100 =? 0)%Z.

(** [q > f] for an [int] [q] and a [float] [f]: Python compares the two
    exactly, a NaN comparing false. *)
Definition Z_gt_float (q : Z) (f : float) : bool :=
  match Prim2SF f with
  | S754_nan => false
  | S754_infinity s => s
  | S754_zero _ => (0 <? q)%Z
  | S754_finite s m e =>
      let v := if s then Zneg m else Zpos m in
      if (0 <=? e)%Z then (v * 2 ^ e <? q)%Z else (v <? q * 2 ^ (- e))%Z
  end.

(** A value of [option float] with [None] read as [float('inf')]. *)
Definition or_inf (x : option float) : float :=
  match x with
  | Some v => v
  | None => infinity
  end.

End PyNum.

(* ================================================================== *)
(** ** Enumerations, time of day *)

(** Modelled from the spec: enums.py is not among the sources.  [Order] is
    the direction of an order, Buy, Sell, Short or Cover, a string-valued
    enumeration whose [value] names the submit button
    ([trading-order-button-<value>]) and whose members compare equal to
    their values; [TIF] is the time in force, DAY, GTC or GTX, whose
    [value] is the visible label of the option. *)
Inductive Order := BUY | SELL | SHORT | COVER.

Definition Order_value (d : Order) : string :=
  match d with
  | BUY => "buy"
  | SELL => "sell"
  | SHORT => "short"
  | COVER => "cover"
  end.

Inductive TIF := DAY | GTC | GTX.

Definition TIF_value (t : TIF) : string :=
  match t with
  | DAY => "DAY"
  | GTC => "GTC"
  | GTX => "GTX"
  end.

(** A time of day, as the clock of the exchange shows it. *)
Record tod := { hour : N; minute : N; second : N }.

Definition seconds_of (t : tod) : N :=
  (hour t * 3600 + minute t * 60 + second t)%N.

(** Modelled from the spec: time_helpers.py is not among the sources.
    [time_between (h1, m1) (h2, m2)] holds when the current time falls
    within the session that opens at [h1:m1] and closes at [h2:m2]. *)
Definition time_between (t1 t2 : N * N) (now : tod) : bool :=
  (fst t1 * 3600 + snd t1 * 60 <=? seconds_of now)%N
  && (seconds_of now <=? fst t2 * 3600 + snd t2 * 60)%N.

(** The three kinds of locate offer, in the order the source reads them. *)
Inductive locate_type := PreBorrow | SingleUse | Locate.

(* ================================================================== *)
(** ** Exceptions, page actions, the page as it is read *)

Inductive pyclass := ExceptionC | ValueErrorC | AttributeErrorC
                   | ZeroDivisionErrorC | OverflowErrorC.

(** One constructor per [raise] of the source (and per conversion that can
    fail), with the values its message shows. *)
Inductive exn :=
| SymbolNotFound (symbol : string)
    (* Exception(f"ERROR: {symbol=} Not found") *)
| ShareAmountNotDivisible (share_amount : Z)
    (* Exception('ERROR: share_amount is not divisible by 100 ...') *)
| NoLocateElement (symbol : string)
    (* Exception('Error: not able to locate symbol element ...') *)
| NotInLocatedSymbols (symbol : string)
    (* Exception("ERROR! cannot find ... in located symbols") *)
| QuantityNotDivisible (quantity : Z)
    (* ValueError("ERROR! quantity is not divisible by 100 ...") *)
| QuantityAboveLocated (quantity : Z)
    (* ValueError("ERROR! you cannot credit more shares than u already have ...") *)
| MarketOrdersNotAllowed (t : tod)
    (* Exception('Error: Market orders are not allowed at this time ...') *)
| StopMarketOrdersNotAllowed (t : tod)
    (* Exception('Error: Stop Market orders are not allowed at this time ...') *)
| BadTimeInForce
    (* AttributeError("Error: time_in_force argument must be one of ...") *)
| BadFloatText
    (* ValueError of float(text) *)
| DivisionByZero
    (* ZeroDivisionError of a float division *)
| IntOfNaN
    (* ValueError of int(nan) *)
| IntOfInfinity.
    (* OverflowError of int(inf) *)

Definition exn_class (e : exn) : pyclass :=
  match e with
  | SymbolNotFound _ | ShareAmountNotDivisible _ | NoLocateElement _
  | NotInLocatedSymbols _ | MarketOrdersNotAllowed _
  | StopMarketOrdersNotAllowed _ => ExceptionC
  | QuantityNotDivisible _ | QuantityAboveLocated _ | BadFloatText
  | IntOfNaN => ValueErrorC
  | BadTimeInForce => AttributeErrorC
  | DivisionByZero => ZeroDivisionErrorC
  | IntOfInfinity => OverflowErrorC
  end.

(** The elements the methods act on. *)
Inductive locator :=
| ById (id : string)
| OfferControl (symbol : string) (ty : locate_type) (span : nat)
    (* //*[contains(@id, 'oitem-l-SYMBOL-Type') and contains(@id, '-cell-8')]/span[n] *)
| InventorySell (symbol : string).
    (* //*[@id='inv-SYMBOL-SingleUse-sell']/button *)

(** What is typed into an element. *)
Inductive keys :=
| KStr (s : string)
| KInt (n : Z)
| KFloat (x : float).

(** The actions on the page: the clicks, the typing, the selections.
    Sleeping, printing and warning leave the page alone and are not
    recorded. *)
Inductive action :=
| Click (l : locator)
| Clear (l : locator)
| SendKeys (l : locator) (k : keys) (enter : bool)
| SelectByIndex (l : locator) (idx : nat)
| SelectByVisibleText (l : locator) (label : string).

(** What the page shows.  A text that is polled is given by the index of
    the poll; a number that is parsed out of a text is given already parsed,
    [None] when the element is missing or its text is no number. *)
Record World := {
  (* text of trading-order-symbol when load_symbol starts *)
  w_symbol_text : string;
  (* text of trading-order-ask at the test before the symbol is typed *)
  w_ask_before : string;
  (* text of trading-order-ask at iteration i of the loop of load_symbol *)
  w_ask : nat -> string;
  (* Notification.get_last_notification_message() at iteration i *)
  w_last_notification : nat -> string;
  (* float(text of trading-order-p without commas) *)
  w_last : option float;
  (* text of short-list-locate-status at its n-th read *)
  w_locate_status : nat -> string;
  (* float(text) of cell 2 (price per share) or 6 (total) of the offer row
     of a type, at iteration i of the loop of locate_stock *)
  w_offer_cell : nat -> locate_type -> nat -> option float;
  (* does short-locate-button-cancel exist and take the click *)
  w_popup_cancel : bool;
  (* first column of locate-inventory-table *)
  w_located_symbols : list string;
  (* float(text of inv-SYMBOL-SingleUse-cell-2) *)
  w_located_shares : option float;
  (* the clock *)
  w_now : tod
}.

(* ================================================================== *)
(** ** The monad of the methods *)

Inductive outcome (A : Type) :=
| Return (a : A)
| Raise (e : exn)
| Spinning.   (* the fuel ended inside a [while] loop *)

Arguments Return {A} a.
Arguments Raise {A} e.
Arguments Spinning {A}.

Definition M (A : Type) : Type := outcome A * list action.

Definition ret {A} (a : A) : M A := (Return a, []).

Definition raise {A} (e : exn) : M A := (Raise e, []).

Definition spin {A} : M A := (Spinning, []).

Definition act (a : action) : M unit := (Return tt, [a]).

Definition bind {A B} (m : M A) (f : A -> M B) : M B :=
  match m with
  | (Return a, t) => let (r, t') := f a in (r, t ++ t')
  | (Raise e, t) => (Raise e, t)
  | (Spinning, t) => (Spinning, t)
  end.

Definition lift {A} (o : outcome A) : M A := (o, []).

Notation "x <- m ;; k" := (bind m (fun x => k))
  (at level 61, m at next level, right associativity).
Notation "m ;; k" := (bind m (fun _ => k))
  (at level 61, right associativity).

Definition result {A} (m : M A) : outcome A := fst m.
Definition trace {A} (m : M A) : list action := snd m.

(** [None] is Python's [None]. *)
Definition pybool := option bool.
Definition PyTrue : pybool := Some true.
Definition PyFalse : pybool := Some false.
Definition PyNone {A} : option A := None.

(** Truth value of what an order method returns. *)
Definition truthy (v : pybool) : bool :=
  match v with
  | Some b => b
  | None => false
  end.

(* ================================================================== *)
(** ** load_symbol *)

Import PyStr PyNum.

(** [current_symbol]: the text of trading-order-symbol without '(USD)'. *)
Definition current_symbol (w : World) : string :=
  remove "(USD)" (w_symbol_text w).

(** [.text.replace('.', '').replace(',', '')] *)
Definition strip_price (text : string) : string :=
  remove "," (remove "." text).

(** f'Symbol not found: {symbol.upper()}' *)
Definition not_found_message (symbol : string) : string :=
  "Symbol not found: " ++ upper symbol.

(** The loop [for i in range(300)] of [load_symbol], from iteration [i] with
    [n] iterations left.  Running off the end of the loop is running off the
    end of the method: Python returns [None]. *)
Fixpoint poll_ask (w : World) (symbol : string) (n i : nat)
  : outcome pybool :=
  match n with
  | O => Return PyNone
  | S n' =>
      let price := strip_price (w_ask w i) in
      if price =? "" then
        poll_ask w symbol n' (S i)
      else if isdigit price && (digits_value price =? 0)%N then
        Return PyFalse
      else if isdigit price then
        Return PyTrue
      else if (i =? 15)%nat || (i =? 299)%nat then
        if not_found_message symbol =? w_last_notification w i
        then Raise (SymbolNotFound symbol)
        else poll_ask w symbol n' (S i)
      else
        poll_ask w symbol n' (S i)
  end.

(** The test made before anything is typed: the symbol is already the
    current one and its ask is a positive number. *)
Definition already_loaded (w : World) (symbol : string) : bool :=
  (upper symbol =? current_symbol w)
  && (let price := strip_price (w_ask_before w) in
      isdigit price && (0 <? digits_value price)%N).

(** The symbol is typed in lower case into the lookup field, with RETURN. *)
Definition type_symbol (symbol : string) : action :=
  SendKeys (ById "trading-order-input-symbol") (KStr (lower symbol)) true.

Definition load_symbol (w : World) (symbol : string) : M pybool :=
  if already_loaded w symbol then ret PyTrue
  else
    act (type_symbol symbol) ;;
    lift (poll_ask w symbol 300 0).

(* ================================================================== *)
(** ** calculate_order_quantity *)

Inductive pynum :=
| PyFloat (x : float)
| PyInt (n : Z).

(** [self.last]: the last price, parsed. *)
Definition last (w : World) : M float :=
  match w_last w with
  | Some x => ret x
  | None => raise BadFloatText
  end.

(** [a / b] on floats: Python raises on a zero divisor. *)
Definition float_div (a b : float) : M float :=
  if (b =? 0)%float then raise DivisionByZero else ret (a / b)%float.

(** [int(x)]: the float without its fractional part. *)
Definition int_of_float (x : float) : M Z :=
  match Prim2SF x with
  | S754_nan => raise IntOfNaN
  | S754_infinity _ => raise IntOfInfinity
  | S754_zero _ => ret 0%Z
  | S754_finite s m e =>
      let mag := Z.shiftl (Zpos m) e in
      ret (if s then (- mag)%Z else mag)
  end.

Definition calculate_order_quantity (w : World) (symbol : string)
    (buying_power : float) (float_option : bool) : M (option pynum) :=
  loaded <- load_symbol w symbol ;;
  match loaded with
  | Some false => ret PyNone
  | _ =>
      price <- last w ;;
      quantity <- float_div buying_power price ;;
      if float_option then ret (Some (PyFloat quantity))
      else n <- int_of_float quantity ;; ret (Some (PyInt n))
  end.

(* ================================================================== *)
(** ** locate_stock *)

(** The named tuple [Data] that [locate_stock] returns. *)
Record Data := { price_per_share : float; total : float }.

(** The six variables the offer loop fills in. *)
Record locates := {
  locate_pps_preborrow : option float;
  locate_pps_singleuse : option float;
  locate_pps_locate : option float;
  locate_total_preborrow : option float;
  locate_total_singleuse : option float;
  locate_total_locate : option float
}.

Definition no_locates : locates :=
  {| locate_pps_preborrow := None; locate_pps_singleuse := None;
     locate_pps_locate := None; locate_total_preborrow := None;
     locate_total_singleuse := None; locate_total_locate := None |}.

(** One [try] block of the loop: the price per share (cell 2) is read and
    assigned, then the total (cell 6); a read that fails leaves the
    remaining assignments of the block undone. *)
Definition try_read (w : World) (i : nat) (ty : locate_type)
    (pps tot : option float) : option float * option float :=
  match w_offer_cell w i ty 2 with
  | None => (pps, tot)
  | Some p =>
      match w_offer_cell w i ty 6 with
      | None => (Some p, tot)
      | Some t => (Some p, Some t)
      end
  end.

Definition read_offers (w : World) (i : nat) (st : locates) : locates :=
  let pb := try_read w i PreBorrow (locate_pps_preborrow st) (locate_total_preborrow st) in
  let su := try_read w i SingleUse (locate_pps_singleuse st) (locate_total_singleuse st) in
  let lo := try_read w i Locate (locate_pps_locate st) (locate_total_locate st) in
  {| locate_pps_preborrow := fst pb; locate_pps_singleuse := fst su;
     locate_pps_locate := fst lo; locate_total_preborrow := snd pb;
     locate_total_singleuse := snd su; locate_total_locate := snd lo |}.

Definition is_not_None {A} (x : option A) : bool :=
  match x with
  | Some _ => true
  | None => false
  end.

Definition any_offer (st : locates) : bool :=
  is_not_None (locate_pps_preborrow st)
  || is_not_None (locate_pps_singleuse st)
  || is_not_None (locate_pps_locate st).

(** The loop [for i in range(300)] over the offer rows, from iteration [i]
    with [n] iterations left: [Some] at the [break], [None] when the loop
    runs to its [else]. *)
Fixpoint poll_offers (w : World) (n i : nat) (st : locates) : option locates :=
  match n with
  | O => None
  | S n' =>
      let st' := read_offers w i st in
      if any_offer st' then Some st' else poll_offers w n' (S i) st'
  end.

(** The choice of the offer.  The six values are first replaced by
    [float('inf')] where they are [None]; the test that follows on their
    not being [None] then always holds, and the chain of comparisons on the
    totals decides. *)
Definition select_locate (st : locates) : locate_type * Data :=
  let locate_pps_preborrow := or_inf (locate_pps_preborrow st) in
  let locate_pps_singleuse := or_inf (locate_pps_singleuse st) in
  let locate_pps_locate := or_inf (locate_pps_locate st) in
  let locate_total_preborrow := or_inf (locate_total_preborrow st) in
  let locate_total_singleuse := or_inf (locate_total_singleuse st) in
  let locate_total_locate := or_inf (locate_total_locate st) in
  if (locate_total_preborrow <=? locate_total_singleuse)%float
     && (locate_total_preborrow <=? locate_total_locate)%float
  then (PreBorrow, {| price_per_share := locate_pps_preborrow;
                      total := locate_total_preborrow |})
  else if (locate_total_singleuse <=? locate_total_preborrow)%float
          && (locate_total_singleuse <=? locate_total_locate)%float
  then (SingleUse, {| price_per_share := locate_pps_singleuse;
                      total := locate_total_singleuse |})
  else (Locate, {| price_per_share := locate_pps_locate;
                   total := locate_total_locate |}).

(** The loop [while status == '': sleep], from the [n]-th read of the
    status: the index of the first read that is not empty. *)
Fixpoint wait_status (w : World) (fuel n : nat) : option nat :=
  match fuel with
  | O => None
  | S fuel' =>
      if w_locate_status w n =? "" then wait_status w fuel' (S n) else Some n
  end.

(** The accept control is the first span of cell 8 of the offer row, the
    decline control the second. *)
Definition accept_control (symbol : string) (ty : locate_type) : action :=
  Click (OfferControl (upper symbol) ty 1).

Definition decline_control (symbol : string) (ty : locate_type) : action :=
  Click (OfferControl (upper symbol) ty 2).

Definition accept_or_decline (symbol : string) (ty : locate_type)
    (locate_total max_price : float) : M unit :=
  if (locate_total <=? max_price)%float
  then act (accept_control symbol ty)
  else act (decline_control symbol ty).

(** [share_amount] is an [int]: the test [share_amount is not None] of the
    source holds. *)
Definition locate_stock (fuel : nat) (w : World) (symbol : string)
    (share_amount : Z) (max_price : float) : M (option Data) :=
  if not_divisible_by_100 share_amount
  then raise (ShareAmountNotDivisible share_amount)
  else
    loaded <- load_symbol w symbol ;;
    if negb (truthy loaded) then ret PyNone
    else
      act (Click (ById "locate-tab-1")) ;;
      act (Clear (ById "short-list-input-symbol")) ;;
      act (SendKeys (ById "short-list-input-symbol") (KStr symbol) true) ;;
      act (Clear (ById "short-list-input-shares")) ;;
      act (SendKeys (ById "short-list-input-shares") (KInt share_amount) false) ;;
      match wait_status w fuel 0 with
      | None => spin
      | Some k =>
          if w_locate_status w (S k) =? "Easy to borrow"
          then ret (Some {| price_per_share := 0; total := 0 |})
          else
            act (Click (ById "short-list-button-locate")) ;;
            match poll_offers w 300 0 no_locates with
            | None => raise (NoLocateElement symbol)
            | Some st =>
                let (selected_locate_type, data) := select_locate st in
                accept_or_decline symbol selected_locate_type
                                  (total data) max_price ;;
                ret (Some data)
            end
      end.

(* ================================================================== *)
(** ** credit_locates *)

Definition located_shares (w : World) : M float :=
  match w_located_shares w with
  | Some x => ret x
  | None => raise BadFloatText
  end.

Definition credit_locates (w : World) (symbol : string) (quantity : option Z)
  : M unit :=
  if negb (mem (upper symbol) (w_located_symbols w))
  then raise (NotInLocatedSymbols symbol)
  else
    match quantity with
    | Some q =>
        if not_divisible_by_100 q then raise (QuantityNotDivisible q)
        else
          shares <- located_shares w ;;
          if Z_gt_float q shares then raise (QuantityAboveLocated q)
          else
            act (Clear (ById ("inv-" ++ upper symbol ++ "-SingleUse-sell-qty"))) ;;
            act (SendKeys (ById ("inv-" ++ upper symbol ++ "-SingleUse-sell-qty"))
                          (KInt q) false)
    | None => ret tt
    end ;;
    act (Click (InventorySell (upper symbol))).

(* ================================================================== *)
(** ** The order methods *)

(** [time_in_force not in ['DAY', 'GTC', 'GTX']] *)
Definition bad_time_in_force (time_in_force : string) : bool :=
  negb (mem time_in_force ["DAY"; "GTC"; "GTX"]).

(** The steps every order method makes after its checks: the symbol is
    loaded, the order type chosen by its index in the menu, the time in
    force by its label, the quantity typed. *)
Definition fill_order_form (w : World) (symbol : string) (type_index : nat)
    (time_in_force : string) (share_amount : Z) : M unit :=
  load_symbol w symbol ;;
  act (SelectByIndex (ById "trading-order-select-type") type_index) ;;
  act (SelectByVisibleText (ById "trading-order-select-time") time_in_force) ;;
  act (Clear (ById "trading-order-input-quantity")) ;;
  act (SendKeys (ById "trading-order-input-quantity") (KInt share_amount) false).

Definition type_price (id : string) (price : float) : M unit :=
  act (Clear (ById id)) ;;
  act (SendKeys (ById id) (KFloat price) false).

Definition click_direction (order_direction : string) : M unit :=
  act (Click (ById ("trading-order-button-" ++ order_direction))).

(** The end of [limit_order] and of [market_order]: after a short order
    the method waits a second and clicks the cancel button of the locate
    popup; [False] when the click went through, [True] when it raised. *)
Definition after_submit (w : World) (order_direction : string) : M pybool :=
  if order_direction =? Order_value SHORT then
    if w_popup_cancel w
    then act (Click (ById "short-locate-button-cancel")) ;; ret PyFalse
    else ret PyTrue
  else ret PyTrue.

Definition limit_order (w : World) (order_direction : Order) (symbol : string)
    (share_amount : Z) (limit_price : float) (time_in_force : TIF) : M pybool :=
  let symbol := lower symbol in
  let order_direction := Order_value order_direction in
  let time_in_force := TIF_value time_in_force in
  if bad_time_in_force time_in_force then raise BadTimeInForce
  else
    fill_order_form w symbol 1 time_in_force share_amount ;;
    type_price "trading-order-input-price" limit_price ;;
    click_direction order_direction ;;
    after_submit w order_direction.

Definition market_order (w : World) (order_direction : Order) (symbol : string)
    (share_amount : Z) (time_in_force : TIF) : M pybool :=
  let symbol := lower symbol in
  let order_direction := Order_value order_direction in
  let time_in_force := TIF_value time_in_force in
  if negb (time_between (9, 30)%N (16, 0)%N (w_now w))
  then raise (MarketOrdersNotAllowed (w_now w))
  else if bad_time_in_force time_in_force then raise BadTimeInForce
  else
    fill_order_form w symbol 0 time_in_force share_amount ;;
    click_direction order_direction ;;
    after_submit w order_direction.

(** The three methods below end without a [return] of a value (or with a
    bare [return]): they give [None]. *)
Definition stop_market_order (w : World) (order_direction : Order)
    (symbol : string) (share_amount : Z) (stop_price : float)
    (time_in_force : TIF) : M pybool :=
  let symbol := lower symbol in
  let order_direction := Order_value order_direction in
  let time_in_force := TIF_value time_in_force in
  if negb (time_between (9, 30)%N (16, 0)%N (w_now w))
  then raise (StopMarketOrdersNotAllowed (w_now w))
  else if bad_time_in_force time_in_force then raise BadTimeInForce
  else
    fill_order_form w symbol 2 time_in_force share_amount ;;
    type_price "trading-order-input-sprice" stop_price ;;
    click_direction order_direction ;;
    ret PyNone.

Definition stop_limit_order (w : World) (order_direction : Order)
    (symbol : string) (share_amount : Z) (limit_price stop_price : float)
    (time_in_force : TIF) : M pybool :=
  let symbol := lower symbol in
  let order_direction := Order_value order_direction in
  let time_in_force := TIF_value time_in_force in
  if bad_time_in_force time_in_force then raise BadTimeInForce
  else
    fill_order_form w symbol 3 time_in_force share_amount ;;
    type_price "trading-order-input-price" limit_price ;;
    type_price "trading-order-input-sprice" stop_price ;;
    click_direction order_direction ;;
    ret PyNone.

Definition range_order (w : World) (order_direction : Order) (symbol : string)
    (share_amount : Z) (low_price high_price : float) (time_in_force : TIF)
  : M pybool :=
  let symbol := lower symbol in
  let order_direction := Order_value order_direction in
  let time_in_force := TIF_value time_in_force in
  if bad_time_in_force time_in_force then raise BadTimeInForce
  else
    fill_order_form w symbol 6 time_in_force share_amount ;;
    type_price "trading-order-input-price" low_price ;;
    type_price "trading-order-input-sprice" high_price ;;
    click_direction order_direction ;;
    ret PyNone.

(* ================================================================== *)
(** ** Definitions used by the statements *)

(** The same page at another time of day. *)
Definition set_now (w : World) (t : tod) : World :=
  {| w_symbol_text := w_symbol_text w;
     w_ask_before := w_ask_before w;
     w_ask := w_ask w;
     w_last_notification := w_last_notification w;
     w_last := w_last w;
     w_locate_status := w_locate_status w;
     w_offer_cell := w_offer_cell w;
     w_popup_cancel := w_popup_cancel w;
     w_located_symbols := w_located_symbols w;
     w_located_shares := w_located_shares w;
     w_now := t |}.

(** The session of the market orders, 09:30 to 16:00, in seconds. *)
Definition session_open : N := 9 * 3600 + 30 * 60.
Definition session_close : N := 16 * 3600.

Definition outside_session (t : tod) : Prop :=
  (seconds_of t < session_open)%N \/ (session_close < seconds_of t)%N.

(** The exceptions that reject an order for the time of day. *)
Definition market_hours_error (e : exn) : bool :=
  match e with
  | MarketOrdersNotAllowed _ | StopMarketOrdersNotAllowed _ => true
  | _ => false
  end.

(** The exceptions with which a method rejects one of its arguments before
    it acts on the page: a quantity that is no multiple of 100 or that is
    more than what is located, a symbol that is not located, a time in
    force that is not known. *)
Definition invalid_argument_error (e : exn) : bool :=
  match e with
  | ShareAmountNotDivisible _ | QuantityNotDivisible _
  | QuantityAboveLocated _ | NotInLocatedSymbols _ | BadTimeInForce => true
  | _ => false
  end.

(** The offer of a type among the six variables, [None] read as infinity. *)
Definition pps_of (st : locates) (ty : locate_type) : float :=
  or_inf match ty with
         | PreBorrow => locate_pps_preborrow st
         | SingleUse => locate_pps_singleuse st
         | Locate => locate_pps_locate st
         end.

Definition total_of (st : locates) (ty : locate_type) : float :=
  or_inf match ty with
         | PreBorrow => locate_total_preborrow st
         | SingleUse => locate_total_singleuse st
         | Locate => locate_total_locate st
         end.

(** The order in which the chain of comparisons looks at the offers. *)
Definition evaluation_rank (ty : locate_type) : nat :=
  match ty with
  | PreBorrow => 0
  | SingleUse => 1
  | Locate => 2
  end.

(** The total of [ty] is at most the totals of both other offers. *)
Definition le_both_others (st : locates) (ty : locate_type) : bool :=
  match ty with
  | PreBorrow => (total_of st PreBorrow <=? total_of st SingleUse)%float
                 && (total_of st PreBorrow <=? total_of st Locate)%float
  | SingleUse => (total_of st SingleUse <=? total_of st PreBorrow)%float
                 && (total_of st SingleUse <=? total_of st Locate)%float
  | Locate => (total_of st Locate <=? total_of st PreBorrow)%float
              && (total_of st Locate <=? total_of st SingleUse)%float
  end.

(** What [locate_stock] does to the locate tab and form before it polls
    the status. *)
Definition locate_form_actions (symbol : string) (share_amount : Z)
  : list action :=
  [ Click (ById "locate-tab-1");
    Clear (ById "short-list-input-symbol");
    SendKeys (ById "short-list-input-symbol") (KStr symbol) true;
    Clear (ById "short-list-input-shares");
    SendKeys (ById "short-list-input-shares") (KInt share_amount) false ].

(** Binary64 numbers in their order.  A float that is no NaN is given a key
    of three integers, and the comparison of floats is the lexicographic
    comparison of the keys. *)
Module FloatOrder.

Definition key (x : spec_float) : Z * Z * Z :=
  match x with
  | S754_zero _ => (0, 0, 0)%Z
  | S754_infinity s => (if s then -2 else 2, 0, 0)%Z
  | S754_nan => (3, 0, 0)%Z
  | S754_finite s m e => if s then (-1, - e, Zneg m)%Z else (1, e, Zpos m)%Z
  end.

Definition lexle (a b : Z * Z * Z) : Prop :=
  let '(a1, a2, a3) := a in
  let '(b1, b2, b3) := b in
  (a1 < b1 \/ (a1 = b1 /\ (a2 < b2 \/ (a2 = b2 /\ a3 <= b3))))%Z.

Definition number (x : spec_float) : Prop := x <> S754_nan.

End FloatOrder.

(* ------------------------------------------------------------------ *)
(** *** Sample pages *)

Module Samples.

Definition noon : tod := {| hour := 12; minute := 0; second := 0 |}.
Definition early : tod := {| hour := 8; minute := 15; second := 0 |}.

Definition no_cells (i : nat) (ty : locate_type) (cell : nat) : option float :=
  None.

(** A page given by what its polled elements show. *)
Definition page (ask notification status : nat -> string)
    (cells : nat -> locate_type -> nat -> option float)
    (popup : bool) (located : list string) (now : tod) : World :=
  {| w_symbol_text := "";
     w_ask_before := "";
     w_ask := ask;
     w_last_notification := notification;
     w_last := Some 187.25%float;
     w_locate_status := status;
     w_offer_cell := cells;
     w_popup_cancel := popup;
     w_located_symbols := located;
     w_located_shares := Some 300%float;
     w_now := now |}.

Definition always (s : string) (i : nat) : string := s.

(** The ask is empty on the first [k] polls, then shows [s]. *)
Definition after (k : nat) (s : string) (i : nat) : string :=
  if (i <? k)%nat then "" else s.

(** The quote arrives on the third poll. *)
Definition open_page : World :=
  page (after 2 "187.25") (always "") (always "") no_cells false [] noon.

(** The ask shows zero on the third poll: the market is closed. *)
Definition closed_page : World :=
  page (after 2 "0.00") (always "") (always "") no_cells false [] noon.

(** The ask stays empty and the page says that the symbol is unknown. *)
Definition not_found_page : World :=
  page (always "") (always "Symbol not found: ZZZZ") (always "") no_cells
       false [] noon.

(** The ask stays empty and nothing is notified. *)
Definition silent_page : World :=
  page (always "") (always "") (always "") no_cells false [] noon.

(** A quote, a symbol that is hard to borrow, and no offer row ever. *)
Definition no_offer_page : World :=
  page (always "187.25") (always "") (after 3 "Hard to borrow") no_cells
       false [] noon.

(** The three offers with totals 12, 10 and 10, shown from the second
    poll on. *)
Definition three_offers (i : nat) (ty : locate_type) (cell : nat)
  : option float :=
  if (i <? 1)%nat then None
  else match ty, cell with
       | PreBorrow, 2 => Some 0.5%float
       | PreBorrow, 6 => Some 12%float
       | SingleUse, 2 => Some 0.25%float
       | SingleUse, 6 => Some 10%float
       | Locate, 2 => Some 0.375%float
       | Locate, 6 => Some 10%float
       | _, _ => None
       end.

Definition three_offers_page : World :=
  page (always "187.25") (always "") (after 3 "Hard to borrow") three_offers
       false [] noon.

Definition three_offers_read : locates :=
  {| locate_pps_preborrow := Some 0.5%float;
     locate_pps_singleuse := Some 0.25%float;
     locate_pps_locate := Some 0.375%float;
     locate_total_preborrow := Some 12%float;
     locate_total_singleuse := Some 10%float;
     locate_total_locate := Some 10%float |}.

(** A quote, and 300 shares of AAPL in the locate inventory. *)
Definition inventory_page : World :=
  page (always "187.25") (always "") (always "") no_cells false ["AAPL"] noon.

(** A quote, and the popup of a short order that could not be located. *)
Definition popup_page : World :=
  page (always "187.25") (always "") (always "") no_cells true [] noon.

(** The same quote before the session opens. *)
Definition early_page : World :=
  page (always "187.25") (always "") (always "") no_cells false [] early.

End Samples.

(* ================================================================== *)
(** ** data *)

(** The named tuple that [data] returns. *)
Record Quote := {
  q_open : float; q_high : float; q_low : float; q_close : float;
  q_volume : float; q_last : float; q_ask : float; q_bid : float
}.

Definition element_ids : list string :=
  [ "trading-order-open"; "trading-order-high"; "trading-order-low";
    "trading-order-close"; "trading-order-vol"; "trading-order-p";
    "trading-order-ask"; "trading-order-bid" ].

(** The loop over [element_ids]: each text is read and turned into a
    float, [field id] being [float(text.replace(',', ''))] of the element,
    [None] when the conversion raises. *)
Fixpoint read_fields (field : string -> option float) (ids : list string)
  : M (list float) :=
  match ids with
  | [] => ret []
  | id_ :: ids' =>
      match field id_ with
      | None => raise BadFloatText
      | Some val => lst <- read_fields field ids' ;; ret (val :: lst)
      end
  end.

(** [Data._make(lst)] on the list of the eight values. *)
Definition Quote_make (lst : list float) : Quote :=
  {| q_open := nth 0 lst 0%float; q_high := nth 1 lst 0%float;
     q_low := nth 2 lst 0%float; q_close := nth 3 lst 0%float;
     q_volume := nth 4 lst 0%float; q_last := nth 5 lst 0%float;
     q_ask := nth 6 lst 0%float; q_bid := nth 7 lst 0%float |}.

Definition data (w : World) (field : string -> option float) (symbol : string)
  : M Quote :=
  loaded <- load_symbol w symbol ;;
  match loaded with
  | Some false => ret (Quote_make [0; 0; 0; 0; 0; 0; 0; 0]%float)
  | _ => lst <- read_fields field element_ids ;; ret (Quote_make lst)
  end.

(* ================================================================== *)
(** ** _dom_fully_loaded, login, conn *)

(** What the connection methods read: the texts of the headings of the
    portfolio container at each probe, and whether each [find_element]
    finds its element.  [self_user_name], [self_password] and
    [self_hide_attributes] are the attributes of the object. *)
Record Session := {
  (* texts of //*[contains(@id,'portfolio-container')]//div//div//h2 at the
     n-th probe *)
  s_headings : nat -> list string;
  (* find_element(By.ID, "login") in conn *)
  s_login_form : bool;
  (* find_element(By.ID, "login") in login *)
  s_login_field : bool;
  (* find_element(By.ID, "password") in login *)
  s_password_field : bool;
  (* find_element(By.ID, "trading-order-select-type") in login, and the
     selection of its option of index 1 *)
  s_order_type_menu : bool;
  self_user_name : string;
  self_password : string;
  self_hide_attributes : bool
}.

Definition TZ_HOME_URL : string := "https://standard.tradezeroweb.us/".

(** What the connection methods do.  The calls into account.py and
    watchlist.py, which are not among the sources, are recorded and taken
    to return. *)
Inductive session_action :=
| OnPage (a : action)
| Get (url : string)          (* driver.get(url) *)
| HideAttributes              (* Account.hide_attributes() *)
| RestoreWatchlist            (* Watchlist.restore() *)
| DumpCookies.                (* pickle.dump(driver.get_cookies(), ...) *)

Inductive session_exn :=
| NoSuchElementException (id : string)
| ReconnectFailed.
    (* Exception('@ tz_conn(): Error: not able to reconnect, max retries exceeded') *)

Inductive session_outcome (A : Type) :=
| Done (a : A)
| Failed (e : session_exn).

Arguments Done {A} a.
Arguments Failed {A} e.

(** A connection method starts at a probe of the headings and ends at a
    later one, with an outcome and the actions it made. *)
Definition SessionM (A : Type) : Type :=
  nat -> session_outcome A * list session_action * nat.

Definition cret {A} (a : A) : SessionM A := fun p => (Done a, [], p).

Definition craise {A} (e : session_exn) : SessionM A := fun p => (Failed e, [], p).

Definition cact (a : session_action) : SessionM unit := fun p => (Done tt, [a], p).

Definition cbind {A B} (m : SessionM A) (f : A -> SessionM B) : SessionM B :=
  fun p =>
    match m p with
    | (Done a, t, p') =>
        match f a p' with
        | (r, t', p'') => (r, t ++ t', p'')
        end
    | (Failed e, t, p') => (Failed e, t, p')
    end.

(** [try: body except NoSuchElementException: handler]. *)
Definition except_NoSuchElement {A} (body handler : SessionM A) : SessionM A :=
  fun p =>
    match body p with
    | (Failed (NoSuchElementException _), t, p') =>
        match handler p' with
        | (r, t', p'') => (r, t ++ t', p'')
        end
    | r => r
    end.

(** [driver.find_element(By.ID, id)], [found] telling whether the element
    is there. *)
Definition find_element (id : string) (found : bool) : SessionM unit :=
  if found then cret tt else craise (NoSuchElementException id).

(** The loop of [_dom_fully_loaded]: one probe of the headings per
    iteration, [True] at the first that shows 'Portfolio', [False] after
    [iter_amount] probes without it. *)
Fixpoint dom_fully_loaded (s : Session) (iter_amount : nat) : SessionM bool :=
  fun p =>
    match iter_amount with
    | O => (Done false, [], p)
    | S n =>
        if mem "Portfolio" (s_headings s p) then (Done true, [], S p)
        else dom_fully_loaded s n (S p)
    end.

Definition login (s : Session) : SessionM unit :=
  cbind (find_element "login" (s_login_field s)) (fun _ =>
  cbind (cact (OnPage (SendKeys (ById "login") (KStr (self_user_name s)) false)))
        (fun _ =>
  cbind (find_element "password" (s_password_field s)) (fun _ =>
  cbind (cact (OnPage (SendKeys (ById "password") (KStr (self_password s)) true)))
        (fun _ =>
  cbind (dom_fully_loaded s 150) (fun _ =>
  cbind (if self_hide_attributes s then cact HideAttributes else cret tt)
        (fun _ =>
  cbind (find_element "trading-order-select-type" (s_order_type_menu s))
        (fun _ =>
  cbind (cact (OnPage (SelectByIndex (ById "trading-order-select-type") 1)))
        (fun _ =>
  cbind (cact (Get TZ_HOME_URL)) (fun _ =>
  cact DumpCookies))))))))).

(** The [try] statement of [conn]: [Some True] where it returns [True],
    [None] where control leaves it at its end, to reach the [raise] that
    follows. *)
Definition reconnect (s : Session) : SessionM (option bool) :=
  except_NoSuchElement
    (cbind (find_element "login" (s_login_form s)) (fun _ =>
     cbind (login s) (fun _ =>
     cbind (cact RestoreWatchlist) (fun _ =>
     cret (Some true)))))
    (cbind (cact (Get TZ_HOME_URL)) (fun _ =>
     cbind (dom_fully_loaded s 150) (fun loaded =>
     if loaded then
       cbind (if self_hide_attributes s then cact HideAttributes
              else cret tt) (fun _ =>
       cbind (cact RestoreWatchlist) (fun _ =>
       cret (Some true)))
     else cret None))).

Definition conn (s : Session) : SessionM bool :=
  cbind (dom_fully_loaded s 1) (fun loaded =>
  if loaded then cret true
  else
    cbind (reconnect s) (fun returned =>
      match returned with
      | Some b => cret b
      | None => craise ReconnectFailed
      end)).

(** The run of a connection method from the first probe. *)
Definition run {A} (m : SessionM A) : session_outcome A * list session_action :=
  fst (m 0).

(** Some probe from [p] on, among the next [n], shows 'Portfolio'. *)
Definition portfolio_shown (s : Session) (p n : nat) : Prop :=
  exists k, p <= k < p + n /\ mem "Portfolio" (s_headings s k) = true.

(* ================================================================== *)
(** ** More definitions used by the statements *)

(** The ask at poll [i] is a number. *)
Definition shows_number (w : World) (i : nat) : bool :=
  isdigit (strip_price (w_ask w i)).

(** Poll [i] is one of the two where the notification is looked at, the
    ask there is neither empty nor a number, and the last notification is
    the one for the unknown symbol. *)
Definition confirms_not_found (w : World) (symbol : string) (i : nat) : bool :=
  negb (strip_price (w_ask w i) =? "")
  && negb (isdigit (strip_price (w_ask w i)))
  && ((i =? 15)%nat || (i =? 299)%nat)
  && (not_found_message symbol =? w_last_notification w i).

(** The offer of a type among the six variables, as it was read. *)
Definition offer_pps (st : locates) (ty : locate_type) : option float :=
  match ty with
  | PreBorrow => locate_pps_preborrow st
  | SingleUse => locate_pps_singleuse st
  | Locate => locate_pps_locate st
  end.

Definition offer_total (st : locates) (ty : locate_type) : option float :=
  match ty with
  | PreBorrow => locate_total_preborrow st
  | SingleUse => locate_total_singleuse st
  | Locate => locate_total_locate st
  end.

(** The click on the cancel button of the locate popup. *)
Definition cancel_popup : action := Click (ById "short-locate-button-cancel").

(** The actions of an order method on the order form, after the symbol is
    loaded: the order type, the time in force, the quantity, the prices
    field by field, the button of the direction. *)
Definition order_form_actions (type_index : nat) (time_in_force : TIF)
    (share_amount : Z) (prices : list (string * float)) (d : Order)
  : list action :=
  [ SelectByIndex (ById "trading-order-select-type") type_index;
    SelectByVisibleText (ById "trading-order-select-time")
                        (TIF_value time_in_force);
    Clear (ById "trading-order-input-quantity");
    SendKeys (ById "trading-order-input-quantity") (KInt share_amount) false ]
  ++ flat_map (fun f => [ Clear (ById (fst f));
                          SendKeys (ById (fst f)) (KFloat (snd f)) false ])
              prices
  ++ [ Click (ById ("trading-order-button-" ++ Order_value d)) ].

(** What [limit_order] and [market_order] do after the click on the button
    of the direction. *)
Definition popup_actions (w : World) (d : Order) : list action :=
  if (Order_value d =? Order_value SHORT) && w_popup_cancel w
  then [cancel_popup] else [].

Module MoreSamples.

(** The portfolio shows at once. *)
Definition ready_session : Session :=
  {| s_headings := fun k => ["Portfolio"; "Watchlist"];
     s_login_form := false;
     s_login_field := false;
     s_password_field := false;
     s_order_type_menu := true;
     self_user_name := "user";
     self_password := "secret";
     self_hide_attributes := false |}.

(** The portfolio shows on the fourth probe; no login form. *)
Definition slow_session : Session :=
  {| s_headings := fun k => if (k <? 3)%nat then ["Loading"] else ["Portfolio"];
     s_login_form := false;
     s_login_field := false;
     s_password_field := false;
     s_order_type_menu := false;
     self_user_name := "user";
     self_password := "secret";
     self_hide_attributes := true |}.

(** The portfolio never shows, and there is no login form. *)
Definition dead_session : Session :=
  {| s_headings := fun k => [];
     s_login_form := false;
     s_login_field := false;
     s_password_field := false;
     s_order_type_menu := false;
     self_user_name := "user";
     self_password := "secret";
     self_hide_attributes := false |}.

(** The login form is there and so is everything [login] looks for, but
    the portfolio never shows. *)
Definition login_session : Session :=
  {| s_headings := fun k => [];
     s_login_form := true;
     s_login_field := true;
     s_password_field := true;
     s_order_type_menu := true;
     self_user_name := "user";
     self_password := "secret";
     self_hide_attributes := false |}.

(** The ask shows a dash, and the page says at poll 15 that the symbol is
    unknown. *)
Definition dash_page : World :=
  Samples.page (Samples.always "-") (Samples.always "Symbol not found: ZZZZ")
               (Samples.always "") Samples.no_cells false [] Samples.noon.

(** A quote, and a symbol that is easy to borrow. *)
Definition easy_page : World :=
  Samples.page (Samples.always "187.25") (Samples.always "")
               (Samples.after 2 "Easy to borrow") Samples.no_cells false []
               Samples.noon.

(** A quote, and a locate status that never shows. *)
Definition no_status_page : World :=
  Samples.page (Samples.always "187.25") (Samples.always "")
               (Samples.always "") Samples.no_cells false [] Samples.noon.

(** Only the SingleUse row shows, on the third poll, and its total cannot
    be read. *)
Definition half_offer (i : nat) (ty : locate_type) (cell : nat)
  : option float :=
  match ty, cell with
  | SingleUse, 2 => if (i <? 2)%nat then None else Some 0.25%float
  | _, _ => None
  end.

Definition half_offer_page : World :=
  Samples.page (Samples.always "187.25") (Samples.always "")
               (Samples.after 3 "Hard to borrow") half_offer false []
               Samples.noon.

(** A quote whose last price reads as minus zero. *)
Definition zero_price_page : World :=
  {| w_symbol_text := "";
     w_ask_before := "";
     w_ask := Samples.always "187.25";
     w_last_notification := Samples.always "";
     w_last := Some (- 0)%float;
     w_locate_status := Samples.always "";
     w_offer_cell := Samples.no_cells;
     w_popup_cancel := false;
     w_located_symbols := [];
     w_located_shares := None;
     w_now := Samples.noon |}.

(** The fields of the quote panel, all readable. *)
Definition quote_fields (id : string) : option float :=
  if id =? "trading-order-vol" then Some 1200300%float else Some 187.25%float.

(** The fields of a quote panel that is still empty. *)
Definition empty_fields (id : string) : option float := None.

End MoreSamples.

(* ================================================================== *)
(** ** Facts about load_symbol *)

Section LoadSymbol.

Variable w : World.
Variable symbol : string.

(** Polls that read an empty ask are skipped, whatever the iteration. *)
Lemma poll_ask_skip_empty (k n i : nat) :
  (forall j, j < k -> strip_price (w_ask w (i + j)) = "") ->
  poll_ask w symbol (k + n) i = poll_ask w symbol n (i + k).
Proof.
  revert i. induction k as [|k IH]; intros i H.
  - cbn. f_equal. lia.
  - cbn [Nat.add poll_ask].
    pose proof (H 0 ltac:(lia)) as H0. rewrite Nat.add_0_r in H0.
    rewrite H0. cbn [String.eqb].
    rewrite IH.
    + f_equal. lia.
    + intros j Hj. replace (S i + j) with (i + S j) by lia. apply H. lia.
Qed.

(** A page whose ask stays empty lets the loop run to its end. *)
Lemma poll_ask_all_empty (n i : nat) :
  (forall j, strip_price (w_ask w j) = "") ->
  poll_ask w symbol n i = Return PyNone.
Proof.
  intros H. revert i. induction n as [|n IH]; intros i; cbn [poll_ask].
  - reflexivity.
  - rewrite H. cbn [String.eqb]. apply IH.
Qed.

(** The only exception of the loop is the one for the unknown symbol. *)
Lemma poll_ask_raises (n i : nat) (e : exn) :
  poll_ask w symbol n i = Raise e -> e = SymbolNotFound symbol.
Proof.
  revert i. induction n as [|n IH]; intros i; cbn [poll_ask].
  - discriminate.
  - destruct (strip_price (w_ask w i) =? ""); [apply IH|].
    destruct (isdigit (strip_price (w_ask w i))
              && (digits_value (strip_price (w_ask w i)) =? 0)%N);
      [discriminate|].
    destruct (isdigit (strip_price (w_ask w i))); [discriminate|].
    destruct ((i =? 15)%nat || (i =? 299)%nat); [|apply IH].
    destruct (not_found_message symbol =? w_last_notification w i);
      [congruence | apply IH].
Qed.

Lemma poll_ask_terminates (n i : nat) : poll_ask w symbol n i <> Spinning.
Proof.
  revert i. induction n as [|n IH]; intros i; cbn [poll_ask].
  - discriminate.
  - destruct (strip_price (w_ask w i) =? ""); [apply IH|].
    destruct (isdigit (strip_price (w_ask w i))
              && (digits_value (strip_price (w_ask w i)) =? 0)%N);
      [discriminate|].
    destruct (isdigit (strip_price (w_ask w i))); [discriminate|].
    destruct ((i =? 15)%nat || (i =? 299)%nat); [|apply IH].
    destruct (not_found_message symbol =? w_last_notification w i);
      [discriminate | apply IH].
Qed.

(** The first poll that is not empty, when it shows digits, decides. *)
Lemma poll_ask_digits (k : nat) :
  k < 300 ->
  (forall j, j < k -> strip_price (w_ask w j) = "") ->
  isdigit (strip_price (w_ask w k)) = true ->
  poll_ask w symbol 300 0 =
    Return (if (digits_value (strip_price (w_ask w k)) =? 0)%N
            then PyFalse else PyTrue).
Proof.
  intros Hk Hempty Hdigit.
  replace 300 with (k + S (299 - k)) by lia.
  rewrite poll_ask_skip_empty by exact Hempty.
  cbn [Nat.add poll_ask]. rewrite Hdigit.
  destruct (strip_price (w_ask w k)) as [|c s] eqn:E; [discriminate|].
  cbn [String.eqb andb].
  destruct (digits_value (String c s) =? 0)%N; reflexivity.
Qed.

Lemma load_symbol_unfold :
  load_symbol w symbol =
    if already_loaded w symbol then (Return PyTrue, [])
    else (poll_ask w symbol 300 0, [type_symbol symbol]).
Proof.
  unfold load_symbol. destruct (already_loaded w symbol); reflexivity.
Qed.

Lemma load_symbol_raises (e : exn) :
  result (load_symbol w symbol) = Raise e -> e = SymbolNotFound symbol.
Proof.
  rewrite load_symbol_unfold.
  destruct (already_loaded w symbol); cbn [result fst].
  - discriminate.
  - apply poll_ask_raises.
Qed.

Lemma load_symbol_terminates : result (load_symbol w symbol) <> Spinning.
Proof.
  rewrite load_symbol_unfold.
  destruct (already_loaded w symbol); cbn [result fst].
  - discriminate.
  - apply poll_ask_terminates.
Qed.

(** When the method returns [False] it has typed the symbol, and nothing
    else. *)
Lemma load_symbol_False :
  result (load_symbol w symbol) = Return PyFalse ->
  load_symbol w symbol = (Return PyFalse, [type_symbol symbol]).
Proof.
  rewrite load_symbol_unfold.
  destruct (already_loaded w symbol); cbn [result fst].
  - discriminate.
  - intros ->. reflexivity.
Qed.

End LoadSymbol.

(** C2: whenever the ask that the loop of [load_symbol] polls, with its
    dots and commas removed, is a number, the method returns [True] if the
    number is positive and [False] (market closed) if it is zero, however
    many polls before it read the empty string. *)
Theorem load_symbol_price_signal (w : World) (symbol : string) (k : nat) :
  k < 300 ->
  (forall j, j < k -> strip_price (w_ask w j) = "") ->
  isdigit (strip_price (w_ask w k)) = true ->
  ((0 < digits_value (strip_price (w_ask w k)))%N ->
     result (load_symbol w symbol) = Return PyTrue)
  /\ (digits_value (strip_price (w_ask w k)) = 0%N ->
      already_loaded w symbol = false ->
      result (load_symbol w symbol) = Return PyFalse).
Proof.
  intros Hk Hempty Hdigit.
  pose proof (poll_ask_digits w symbol k Hk Hempty Hdigit) as P.
  rewrite load_symbol_unfold. split.
  - intros Hpos. destruct (already_loaded w symbol); [reflexivity|].
    cbn [result fst]. rewrite P.
    destruct (N.eqb_spec (digits_value (strip_price (w_ask w k))) 0);
      [lia | reflexivity].
  - intros Hzero ->. cbn [result fst]. rewrite P, Hzero. reflexivity.
Qed.

Lemma load_symbol_price_signal_witness :
  result (load_symbol Samples.open_page "aapl") = Return PyTrue
  /\ result (load_symbol Samples.closed_page "aapl") = Return PyFalse.
Proof.
  split.
  - apply (load_symbol_price_signal Samples.open_page "aapl" 2).
    + lia.
    + intros [|[|j]] Hj; [reflexivity | reflexivity | lia].
    + reflexivity.
    + reflexivity.
  - apply (load_symbol_price_signal Samples.closed_page "aapl" 2).
    + lia.
    + intros [|[|j]] Hj; [reflexivity | reflexivity | lia].
    + reflexivity.
    + reflexivity.
    + reflexivity.
Defined.

(* ================================================================== *)
(** ** Binary64 numbers are totally ordered *)

Section FloatOrderFacts.

Import FloatOrder.

Lemma SFleb_key (x y : spec_float) :
  number x -> number y -> (SFleb x y = true <-> lexle (key x) (key y)).
Proof.
  unfold number, SFleb, SFcompare.
  destruct x as [sx|sx| |sx mx ex], y as [sy|sy| |sy my ey];
    try congruence; intros _ _;
    try destruct sx; try destruct sy; cbn;
    try (split; [intros _; lia | reflexivity]);
    try (split; [discriminate | lia]).
  all: destruct (Z.compare_spec ex ey); cbn;
    try (split; [intros _; lia | reflexivity]);
    try (split; [discriminate | lia]).
  all: change (Pos.compare_cont Eq mx my) with (Pos.compare mx my);
    destruct (Pos.compare_spec mx my); cbn;
    try (split; [intros _; lia | reflexivity]);
    try (split; [discriminate | lia]).
Qed.

Lemma is_nan_number (x : float) : is_nan x = false -> number (Prim2SF x).
Proof.
  unfold is_nan, number. rewrite eqb_spec. intros H E. rewrite E in H.
  discriminate.
Qed.

Lemma leb_lexle (x y : float) :
  is_nan x = false -> is_nan y = false ->
  ((x <=? y)%float = true <-> lexle (key (Prim2SF x)) (key (Prim2SF y))).
Proof.
  intros Hx Hy. rewrite leb_spec.
  apply SFleb_key; apply is_nan_number; assumption.
Qed.

Lemma leb_refl (x : float) : is_nan x = false -> (x <=? x)%float = true.
Proof.
  intros Hx. apply (leb_lexle x x Hx Hx).
  unfold lexle. destruct (key (Prim2SF x)) as [[a b] c]. lia.
Qed.

Lemma leb_total (x y : float) :
  is_nan x = false -> is_nan y = false ->
  (x <=? y)%float = false -> (y <=? x)%float = true.
Proof.
  intros Hx Hy H. apply (leb_lexle y x Hy Hx).
  assert (N : ~ lexle (key (Prim2SF x)) (key (Prim2SF y))).
  { intros L. apply (leb_lexle x y Hx Hy) in L. congruence. }
  revert N. unfold lexle.
  destruct (key (Prim2SF x)) as [[a b] c], (key (Prim2SF y)) as [[a' b'] c'].
  lia.
Qed.

Lemma leb_trans (x y z : float) :
  is_nan x = false -> is_nan y = false -> is_nan z = false ->
  (x <=? y)%float = true -> (y <=? z)%float = true -> (x <=? z)%float = true.
Proof.
  intros Hx Hy Hz H1 H2.
  apply (leb_lexle x y Hx Hy) in H1. apply (leb_lexle y z Hy Hz) in H2.
  apply (leb_lexle x z Hx Hz). revert H1 H2. unfold lexle.
  destruct (key (Prim2SF x)) as [[a b] c], (key (Prim2SF y)) as [[a' b'] c'],
           (key (Prim2SF z)) as [[a'' b''] c''].
  lia.
Qed.

End FloatOrderFacts.

(* ================================================================== *)
(** ** Facts about the choice of the offer *)

Section Selection.

Variable st : locates.

Lemma select_locate_unfold :
  select_locate st =
    let ty := if le_both_others st PreBorrow then PreBorrow
              else if le_both_others st SingleUse then SingleUse
              else Locate in
    (ty, {| price_per_share := pps_of st ty; total := total_of st ty |}).
Proof.
  unfold select_locate, le_both_others, total_of, pps_of. cbn zeta.
  destruct ((or_inf (locate_total_preborrow st)
               <=? or_inf (locate_total_singleuse st))%float
            && (or_inf (locate_total_preborrow st)
                  <=? or_inf (locate_total_locate st))%float);
    [reflexivity|].
  destruct ((or_inf (locate_total_singleuse st)
               <=? or_inf (locate_total_preborrow st))%float
            && (or_inf (locate_total_singleuse st)
                  <=? or_inf (locate_total_locate st))%float);
    reflexivity.
Qed.

Hypothesis numbers : forall ty, is_nan (total_of st ty) = false.

(** The offer that is chosen costs no more than any of the three. *)
Lemma select_locate_least (ty' : locate_type) :
  (total_of st (fst (select_locate st)) <=? total_of st ty')%float = true.
Proof.
  rewrite select_locate_unfold. cbn [fst].
  pose proof (numbers PreBorrow) as Np.
  pose proof (numbers SingleUse) as Ns.
  pose proof (numbers Locate) as Nl.
  unfold le_both_others.
  destruct (total_of st PreBorrow <=? total_of st SingleUse)%float eqn:Eps;
  destruct (total_of st PreBorrow <=? total_of st Locate)%float eqn:Epl;
  destruct (total_of st SingleUse <=? total_of st PreBorrow)%float eqn:Esp;
  destruct (total_of st SingleUse <=? total_of st Locate)%float eqn:Esl;
  cbn [andb];
  pose proof (leb_refl _ Np); pose proof (leb_refl _ Ns);
  pose proof (leb_refl _ Nl);
  try (pose proof (leb_total _ _ Np Ns Eps));
  try (pose proof (leb_total _ _ Np Nl Epl));
  try (pose proof (leb_total _ _ Ns Np Esp));
  try (pose proof (leb_total _ _ Ns Nl Esl));
  destruct ty'; try assumption; try congruence;
  eauto using leb_trans.
Qed.

(** No offer that the chain looks at earlier is at most both others. *)
Lemma select_locate_first (ty' : locate_type) :
  evaluation_rank ty' < evaluation_rank (fst (select_locate st)) ->
  le_both_others st ty' = false.
Proof.
  rewrite select_locate_unfold. cbn [fst].
  destruct (le_both_others st PreBorrow) eqn:Ep;
    [destruct ty'; cbn; lia|].
  destruct (le_both_others st SingleUse) eqn:Es;
    destruct ty'; cbn; intros; try lia; assumption.
Qed.

Lemma select_locate_le_both :
  le_both_others st (fst (select_locate st)) = true.
Proof.
  pose proof (select_locate_least PreBorrow).
  pose proof (select_locate_least SingleUse).
  pose proof (select_locate_least Locate).
  destruct (fst (select_locate st)); cbn [le_both_others];
    apply andb_true_intro; split; assumption.
Qed.

End Selection.

(* ================================================================== *)
(** ** Facts about locate_stock *)

Lemma not_divisible_by_100_false (q : Z) :
  (q mod 100 = 0)%Z -> not_divisible_by_100 q = false.
Proof.
  intros H. unfold not_divisible_by_100. rewrite H. reflexivity.
Qed.

Lemma not_divisible_by_100_true (q : Z) :
  (q mod 100 <> 0)%Z -> not_divisible_by_100 q = true.
Proof.
  intros H. unfold not_divisible_by_100.
  destruct (Z.eqb_spec (q mod 100) 0); [contradiction | reflexivity].
Qed.

(** The offer loop with no price per share on any of its polls runs to its
    [else]. *)
Lemma poll_offers_exhausted (w : World) (n i : nat) :
  (forall j ty, w_offer_cell w j ty 2 = None) ->
  poll_offers w n i no_locates = None.
Proof.
  intros H. revert i. induction n as [|n IH]; intros i; cbn [poll_offers].
  - reflexivity.
  - unfold read_offers, try_read. rewrite !H. cbn. apply IH.
Qed.

Section LocateRun.

Variables (fuel : nat) (w : World) (symbol : string) (share_amount : Z)
          (max_price : float) (k : nat) (st : locates).

Hypothesis divisible : (share_amount mod 100 = 0)%Z.
Hypothesis loaded : result (load_symbol w symbol) = Return PyTrue.
Hypothesis status_shown : wait_status w fuel 0 = Some k.
Hypothesis hard_to_borrow : w_locate_status w (S k) <> "Easy to borrow".
Hypothesis offers_shown : poll_offers w 300 0 no_locates = Some st.

(** The whole run of a negotiation: what is returned, and what is done
    to the page, in order. *)
Lemma locate_stock_negotiates :
  locate_stock fuel w symbol share_amount max_price =
    (Return (Some (snd (select_locate st))),
     trace (load_symbol w symbol)
     ++ locate_form_actions symbol share_amount
     ++ [ Click (ById "short-list-button-locate");
          if (total (snd (select_locate st)) <=? max_price)%float
          then accept_control symbol (fst (select_locate st))
          else decline_control symbol (fst (select_locate st)) ]).
Proof.
  unfold locate_stock.
  rewrite (not_divisible_by_100_false _ divisible).
  destruct (load_symbol w symbol) as [o t]. cbn [result trace fst snd] in *.
  subst o. rewrite status_shown.
  apply String.eqb_neq in hard_to_borrow. rewrite hard_to_borrow.
  rewrite offers_shown. unfold accept_or_decline.
  destruct (select_locate st) as [ty data]. cbn [fst snd].
  destruct (total data <=? max_price)%float; reflexivity.
Qed.

End LocateRun.





(** C4: a quantity that is no multiple of 100 makes [locate_stock] raise
    its exception for the share amount, and makes [credit_locates] raise
    the [ValueError] for the quantity, or, when the symbol is not in the
    locate inventory, the exception for that symbol, which is tested
    first; each of them rejects an argument, and nothing has been done to
    the page when it is raised. *)
Theorem not_multiple_of_100_rejected
    (fuel : nat) (w : World) (symbol : string) (quantity : Z)
    (max_price : float) :
  (quantity mod 100 <> 0)%Z ->
  locate_stock fuel w symbol quantity max_price =
    (Raise (ShareAmountNotDivisible quantity), [])
  /\ (exists e,
        credit_locates w symbol (Some quantity) = (Raise e, [])
        /\ invalid_argument_error e = true
        /\ e = if mem (upper symbol) (w_located_symbols w)
               then QuantityNotDivisible quantity
               else NotInLocatedSymbols symbol).
Proof.
  intros H. apply not_divisible_by_100_true in H.
  unfold locate_stock, credit_locates. rewrite H. split.
  - reflexivity.
  - destruct (mem (upper symbol) (w_located_symbols w));
      eexists; repeat split.
Qed.

Lemma not_multiple_of_100_rejected_witness :
  locate_stock 5 Samples.inventory_page "aapl" 150 20 =
    (Raise (ShareAmountNotDivisible 150), [])
  /\ (exists e,
        credit_locates Samples.inventory_page "aapl" (Some 150%Z) = (Raise e, [])
        /\ invalid_argument_error e = true
        /\ e = QuantityNotDivisible 150).
Proof.
  apply (not_multiple_of_100_rejected 5 Samples.inventory_page "aapl" 150 20).
  discriminate.
Defined.

(** C3, on the page where the ask never shows and the last notification is
    the one for the unknown symbol at every poll, iterations 15 and 299
    included: [load_symbol] raises nothing and returns [None]. *)
Theorem load_symbol_empty_ask_skips_notification :
  Samples.not_found_page.(w_last_notification) 15 = not_found_message "zzzz"
  /\ Samples.not_found_page.(w_last_notification) 299 = not_found_message "zzzz"
  /\ load_symbol Samples.not_found_page "zzzz" =
       (Return PyNone, [type_symbol "zzzz"]).
Proof.
  split; [reflexivity | split; [reflexivity|]].
  rewrite load_symbol_unfold.
  change (already_loaded Samples.not_found_page "zzzz") with false. cbn iota.
  rewrite poll_ask_all_empty; reflexivity.
Qed.

(** C9, on two pages.  Where no offer row ever shows, [locate_stock] raises
    after its 300 polls; where the ask never shows and nothing is
    notified, [load_symbol] ends its 300 polls by returning [None], with
    no exception. *)
Theorem polling_budget_exhausted :
  result (locate_stock 5 Samples.no_offer_page "aapl" 100 20) =
    Raise (NoLocateElement "aapl")
  /\ load_symbol Samples.silent_page "aapl" =
       (Return PyNone, [type_symbol "aapl"]).
Proof.
  split.
  - vm_compute. reflexivity.
  - rewrite load_symbol_unfold.
    change (already_loaded Samples.silent_page "aapl") with false. cbn iota.
    rewrite poll_ask_all_empty; reflexivity.
Qed.

(** C10: when [load_symbol] returns [False], [locate_stock], called with a
    share amount that is a multiple of 100, and [calculate_order_quantity]
    both return [None] without raising; the only thing done to the page is
    the typing of the symbol by [load_symbol], so the locate tab and form
    are left alone. *)
Theorem market_closed_gives_None
    (fuel : nat) (w : World) (symbol : string) (share_amount : Z)
    (max_price buying_power : float) (float_option : bool) :
  (share_amount mod 100 = 0)%Z ->
  result (load_symbol w symbol) = Return PyFalse ->
  locate_stock fuel w symbol share_amount max_price =
    (Return PyNone, [type_symbol symbol])
  /\ calculate_order_quantity w symbol buying_power float_option =
       (Return PyNone, [type_symbol symbol]).
Proof.
  intros Hdiv Hclosed. apply load_symbol_False in Hclosed.
  unfold locate_stock, calculate_order_quantity.
  rewrite (not_divisible_by_100_false _ Hdiv), Hclosed.
  split; reflexivity.
Qed.

Lemma market_closed_gives_None_witness :
  locate_stock 5 Samples.closed_page "aapl" 100 20 =
    (Return PyNone, [type_symbol "aapl"])
  /\ calculate_order_quantity Samples.closed_page "aapl" 1000 false =
       (Return PyNone, [type_symbol "aapl"]).
Proof.
  apply (market_closed_gives_None 5 Samples.closed_page "aapl" 100 20 1000 false).
  - reflexivity.
  - reflexivity.
Defined.

(* ================================================================== *)
(** ** Facts about the order methods *)

Lemma outside_session_closed (t : tod) :
  outside_session t -> time_between (9, 30)%N (16, 0)%N t = false.
Proof.
  unfold outside_session, session_open, session_close, time_between.
  cbn [fst snd]. intros [H|H].
  - apply andb_false_intro1. apply N.leb_gt. lia.
  - apply andb_false_intro2. apply N.leb_gt. lia.
Qed.

Lemma time_in_force_accepted (tif : TIF) :
  bad_time_in_force (TIF_value tif) = false.
Proof. destruct tif; reflexivity. Qed.

Lemma not_short (d : Order) :
  d <> SHORT -> (Order_value d =? Order_value SHORT) = false.
Proof. destruct d; intros H; try reflexivity. contradiction. Qed.

Section Orders.

Variables (w : World) (symbol : string) (share_amount : Z)
          (price price' : float) (time_in_force : TIF).

(** What the methods do once the symbol is loaded, [load_symbol] having
    returned [v] after the actions [t]. *)
Variables (v : pybool) (t : list action).
Hypothesis loaded : load_symbol w (lower symbol) = (Return v, t).

Let form (type_index : nat) : list action :=
  t ++ [ SelectByIndex (ById "trading-order-select-type") type_index;
         SelectByVisibleText (ById "trading-order-select-time")
                             (TIF_value time_in_force);
         Clear (ById "trading-order-input-quantity");
         SendKeys (ById "trading-order-input-quantity") (KInt share_amount)
                  false ].

Lemma fill_order_form_run (type_index : nat) :
  fill_order_form w (lower symbol) type_index (TIF_value time_in_force)
                  share_amount = (Return tt, form type_index).
Proof.
  unfold fill_order_form, form. rewrite loaded. reflexivity.
Qed.

Lemma limit_order_run (d : Order) :
  result (limit_order w d symbol share_amount price time_in_force) =
    result (after_submit w (Order_value d)).
Proof.
  unfold limit_order. rewrite time_in_force_accepted, fill_order_form_run.
  cbn. destruct (after_submit w (Order_value d)). reflexivity.
Qed.

Lemma market_order_run (d : Order) :
  time_between (9, 30)%N (16, 0)%N (w_now w) = true ->
  result (market_order w d symbol share_amount time_in_force) =
    result (after_submit w (Order_value d)).
Proof.
  intros H. unfold market_order.
  rewrite H, time_in_force_accepted, fill_order_form_run.
  cbn. destruct (after_submit w (Order_value d)). reflexivity.
Qed.

Lemma range_order_run (d : Order) :
  range_order w d symbol share_amount price price' time_in_force =
    (Return PyNone,
     form 6 ++ [ Clear (ById "trading-order-input-price");
                 SendKeys (ById "trading-order-input-price") (KFloat price) false;
                 Clear (ById "trading-order-input-sprice");
                 SendKeys (ById "trading-order-input-sprice") (KFloat price') false;
                 Click (ById ("trading-order-button-" ++ Order_value d)) ]).
Proof.
  unfold range_order. rewrite time_in_force_accepted, fill_order_form_run.
  reflexivity.
Qed.

End Orders.

(** An exception of an order method that is not gated on the time of day
    is never one of the two for the market hours. *)
Section NoGate.

Variables (w : World) (d : Order) (symbol : string) (share_amount : Z)
          (price price' : float) (time_in_force : TIF).

Lemma fill_order_form_raises (type_index : nat) (e : exn) :
  result (fill_order_form w (lower symbol) type_index
                          (TIF_value time_in_force) share_amount) = Raise e ->
  market_hours_error e = false.
Proof.
  unfold fill_order_form.
  pose proof (load_symbol_raises w (lower symbol)) as R.
  destruct (load_symbol w (lower symbol)) as [[v|e'|] t];
    cbn [result fst] in R; cbn.
  - discriminate.
  - intros [= <-]. rewrite (R e' eq_refl). reflexivity.
  - discriminate.
Qed.

Lemma limit_order_not_gated (e : exn) :
  result (limit_order w d symbol share_amount price time_in_force) = Raise e ->
  market_hours_error e = false.
Proof.
  unfold limit_order. rewrite time_in_force_accepted.
  pose proof (fill_order_form_raises 1 e) as F.
  destruct (fill_order_form w (lower symbol) 1 (TIF_value time_in_force)
                            share_amount) as [[[]|e'|] t];
    cbn [result fst] in F; cbn.
  - destruct (after_submit w (Order_value d)) as [o t'] eqn:E. cbn.
    unfold after_submit in E.
    destruct (Order_value d =? Order_value SHORT), (w_popup_cancel w);
      cbn in E; injection E as <- _; discriminate.
  - intros [= <-]. apply F. reflexivity.
  - discriminate.
Qed.

Lemma stop_limit_order_not_gated (e : exn) :
  result (stop_limit_order w d symbol share_amount price price' time_in_force)
    = Raise e ->
  market_hours_error e = false.
Proof.
  unfold stop_limit_order. rewrite time_in_force_accepted.
  pose proof (fill_order_form_raises 3 e) as F.
  destruct (fill_order_form w (lower symbol) 3 (TIF_value time_in_force)
                            share_amount) as [[[]|e'|] t];
    cbn [result fst] in F; cbn.
  - discriminate.
  - intros [= <-]. apply F. reflexivity.
  - discriminate.
Qed.

Lemma range_order_not_gated (e : exn) :
  result (range_order w d symbol share_amount price price' time_in_force)
    = Raise e ->
  market_hours_error e = false.
Proof.
  unfold range_order. rewrite time_in_force_accepted.
  pose proof (fill_order_form_raises 6 e) as F.
  destruct (fill_order_form w (lower symbol) 6 (TIF_value time_in_force)
                            share_amount) as [[[]|e'|] t];
    cbn [result fst] in F; cbn.
  - discriminate.
  - intros [= <-]. apply F. reflexivity.
  - discriminate.
Qed.

End NoGate.

(** The methods that are not gated do not look at the clock. *)
Section Clock.

Variables (w : World) (now : tod).

Lemma poll_ask_set_now (symbol : string) (n i : nat) :
  poll_ask (set_now w now) symbol n i = poll_ask w symbol n i.
Proof.
  revert i. induction n as [|n IH]; intros i; cbn [poll_ask].
  - reflexivity.
  - cbn [set_now w_ask w_last_notification]. rewrite !IH. reflexivity.
Qed.

Lemma load_symbol_set_now (symbol : string) :
  load_symbol (set_now w now) symbol = load_symbol w symbol.
Proof.
  rewrite !load_symbol_unfold, poll_ask_set_now. reflexivity.
Qed.

Lemma fill_order_form_set_now (symbol : string) (type_index : nat)
    (time_in_force : string) (share_amount : Z) :
  fill_order_form (set_now w now) symbol type_index time_in_force share_amount
  = fill_order_form w symbol type_index time_in_force share_amount.
Proof.
  unfold fill_order_form. rewrite load_symbol_set_now. reflexivity.
Qed.

End Clock.

(** C5: at every time of day before 09:30 or after 16:00, [market_order]
    and [stop_market_order] raise their exception for the market hours with
    nothing done to the page; [limit_order], [stop_limit_order] and
    [range_order] do the same at every time of day, and no exception they
    raise is one for the market hours. *)
Theorem market_hours_gate
    (w : World) (now : tod) (d : Order) (symbol : string) (share_amount : Z)
    (price price' : float) (time_in_force : TIF) :
  (outside_session now ->
     market_order (set_now w now) d symbol share_amount time_in_force =
       (Raise (MarketOrdersNotAllowed now), [])
     /\ stop_market_order (set_now w now) d symbol share_amount price
                          time_in_force =
          (Raise (StopMarketOrdersNotAllowed now), []))
  /\ (limit_order (set_now w now) d symbol share_amount price time_in_force =
        limit_order w d symbol share_amount price time_in_force
      /\ stop_limit_order (set_now w now) d symbol share_amount price price'
                          time_in_force =
           stop_limit_order w d symbol share_amount price price' time_in_force
      /\ range_order (set_now w now) d symbol share_amount price price'
                     time_in_force =
           range_order w d symbol share_amount price price' time_in_force)
  /\ (forall e,
        result (limit_order w d symbol share_amount price time_in_force)
          = Raise e
        \/ result (stop_limit_order w d symbol share_amount price price'
                                    time_in_force) = Raise e
        \/ result (range_order w d symbol share_amount price price'
                               time_in_force) = Raise e ->
        market_hours_error e = false).
Proof.
  split; [|split].
  - intros H. apply outside_session_closed in H.
    unfold market_order, stop_market_order. cbn [w_now set_now].
    rewrite H. split; reflexivity.
  - unfold limit_order, stop_limit_order, range_order.
    rewrite !fill_order_form_set_now. repeat split.
  - intros e [H|[H|H]].
    + exact (limit_order_not_gated _ _ _ _ _ _ e H).
    + exact (stop_limit_order_not_gated _ _ _ _ _ _ _ e H).
    + exact (range_order_not_gated _ _ _ _ _ _ _ e H).
Qed.

Lemma market_hours_gate_witness :
  market_order Samples.early_page BUY "aapl" 10 DAY =
    (Raise (MarketOrdersNotAllowed Samples.early), [])
  /\ stop_market_order Samples.early_page BUY "aapl" 10 180 DAY =
       (Raise (StopMarketOrdersNotAllowed Samples.early), []).
Proof.
  apply (proj1 (market_hours_gate Samples.early_page Samples.early BUY "aapl"
                                  10 180 190 DAY)).
  left. reflexivity.
Defined.

Lemma load_symbol_trace (w : World) (symbol : string) :
  trace (load_symbol w symbol) = [] \/
  trace (load_symbol w symbol) = [type_symbol symbol].
Proof.
  rewrite load_symbol_unfold. destruct (already_loaded w symbol).
  - left. reflexivity.
  - right. reflexivity.
Qed.

(** C7, as the code has it: for a direction that is not Short and any time
    in force, once the symbol is loaded without an exception,
    [limit_order] returns [True], [market_order] returns [True] when the
    clock is within the session, and [range_order] returns no value. *)
Theorem orders_report_submission
    (w : World) (d : Order) (symbol : string) (share_amount : Z)
    (price price' : float) (time_in_force : TIF) (v : pybool) :
  d <> SHORT ->
  result (load_symbol w (lower symbol)) = Return v ->
  result (limit_order w d symbol share_amount price time_in_force)
    = Return PyTrue
  /\ (time_between (9, 30)%N (16, 0)%N (w_now w) = true ->
      result (market_order w d symbol share_amount time_in_force)
        = Return PyTrue)
  /\ result (range_order w d symbol share_amount price price' time_in_force)
       = Return PyNone.
Proof.
  intros Hd Hload.
  destruct (load_symbol w (lower symbol)) as [o t] eqn:E.
  cbn [result fst] in Hload. subst o.
  assert (S : result (after_submit w (Order_value d)) = Return PyTrue).
  { unfold after_submit. rewrite (not_short d Hd). reflexivity. }
  split; [|split].
  - rewrite (limit_order_run w symbol share_amount price time_in_force v t E).
    exact S.
  - intros Hopen.
    rewrite (market_order_run w symbol share_amount time_in_force v t E d Hopen).
    exact S.
  - rewrite (range_order_run w symbol share_amount price price' time_in_force
               v t E).
    reflexivity.
Qed.

Lemma orders_report_submission_witness :
  result (limit_order Samples.open_page BUY "AAPL" 10 180 GTC) = Return PyTrue
  /\ (time_between (9, 30)%N (16, 0)%N (w_now Samples.open_page) = true ->
      result (market_order Samples.open_page BUY "AAPL" 10 GTC) = Return PyTrue)
  /\ result (range_order Samples.open_page BUY "AAPL" 10 180 190 GTC)
       = Return PyNone.
Proof.
  apply (orders_report_submission Samples.open_page BUY "AAPL" 10 180 190 GTC
                                  PyTrue).
  - discriminate.
  - reflexivity.
Defined.

(** C7, as it was stated, fails: a range order to buy, good till
    cancelled, is submitted and the method returns a value that is not
    true. *)
Lemma range_order_returns_no_signal :
  BUY <> SHORT
  /\ exists v,
       result (range_order Samples.open_page BUY "AAPL" 10 180 190 GTC)
         = Return v
       /\ truthy v = false.
Proof.
  split; [discriminate|]. exists PyNone. split; reflexivity.
Qed.

(** C8, as the code has it: once the symbol is loaded without an exception,
    a short [limit_order], and a short [market_order] within the session,
    return [False] when the click on the cancel button of the locate popup
    goes through and [True] when it fails, and raise nothing; a short
    [range_order] returns no value and never clicks that button. *)
Theorem short_order_popup
    (w : World) (symbol : string) (share_amount : Z)
    (price price' : float) (time_in_force : TIF) (v : pybool) :
  result (load_symbol w (lower symbol)) = Return v ->
  result (limit_order w SHORT symbol share_amount price time_in_force)
    = Return (if w_popup_cancel w then PyFalse else PyTrue)
  /\ (time_between (9, 30)%N (16, 0)%N (w_now w) = true ->
      result (market_order w SHORT symbol share_amount time_in_force)
        = Return (if w_popup_cancel w then PyFalse else PyTrue))
  /\ result (range_order w SHORT symbol share_amount price price'
                         time_in_force) = Return PyNone
  /\ ~ In (Click (ById "short-locate-button-cancel"))
          (trace (range_order w SHORT symbol share_amount price price'
                              time_in_force)).
Proof.
  intros Hload.
  pose proof (load_symbol_trace w (lower symbol)) as T.
  destruct (load_symbol w (lower symbol)) as [o t] eqn:E.
  cbn [result trace fst snd] in Hload, T. subst o.
  assert (S : result (after_submit w (Order_value SHORT)) =
              Return (if w_popup_cancel w then PyFalse else PyTrue)).
  { unfold after_submit. cbn [Order_value]. rewrite String.eqb_refl.
    destruct (w_popup_cancel w); reflexivity. }
  split; [|split; [|split]].
  - rewrite (limit_order_run w symbol share_amount price time_in_force v t E).
    exact S.
  - intros Hopen.
    rewrite (market_order_run w symbol share_amount time_in_force v t E
               SHORT Hopen).
    exact S.
  - rewrite (range_order_run w symbol share_amount price price' time_in_force
               v t E).
    reflexivity.
  - rewrite (range_order_run w symbol share_amount price price' time_in_force
               v t E).
    cbn [trace snd]. intros H.
    apply in_app_or in H. destruct H as [H|H].
    + apply in_app_or in H. destruct H as [H|H].
      * destruct T as [-> | ->]; cbn in H.
        -- exact H.
        -- destruct H as [H|[]]. discriminate H.
      * cbn in H. repeat (destruct H as [H|H]; [discriminate H|]). exact H.
    + cbn in H. repeat (destruct H as [H|H]; [discriminate H|]). exact H.
Qed.

Lemma short_order_popup_witness :
  result (limit_order Samples.popup_page SHORT "AAPL" 10 180 DAY)
    = Return PyFalse
  /\ result (limit_order Samples.open_page SHORT "AAPL" 10 180 DAY)
       = Return PyTrue.
Proof.
  split.
  - refine (proj1 (short_order_popup Samples.popup_page "AAPL" 10 180 190 DAY
                                     PyTrue _)).
    reflexivity.
  - refine (proj1 (short_order_popup Samples.open_page "AAPL" 10 180 190 DAY
                                     PyTrue _)).
    reflexivity.
Defined.

(** C8, as it was stated, fails: no popup shows, the short range order is
    submitted, and the method returns a value that is not [True]. *)
Lemma short_range_order_returns_no_signal :
  w_popup_cancel Samples.open_page = false
  /\ exists v,
       result (range_order Samples.open_page SHORT "AAPL" 10 180 190 DAY)
         = Return v
       /\ truthy v = false.
Proof.
  split; [reflexivity|]. exists PyNone. split; reflexivity.
Qed.

(* ================================================================== *)
(** ** More about load_symbol *)

Section LoadSymbolOutcomes.

Variables (w : World) (symbol : string).

(** An iteration either ends the loop on a number, or ends it on the
    notification, or goes on. *)
Lemma poll_ask_step (n i : nat) :
  poll_ask w symbol (S n) i =
    if shows_number w i then
      Return (if (digits_value (strip_price (w_ask w i)) =? 0)%N
              then PyFalse else PyTrue)
    else if confirms_not_found w symbol i then Raise (SymbolNotFound symbol)
    else poll_ask w symbol n (S i).
Proof.
  cbn [poll_ask]. unfold shows_number, confirms_not_found.
  destruct (strip_price (w_ask w i)) as [|c s] eqn:E.
  - reflexivity.
  - cbn [String.eqb negb andb].
    destruct (isdigit (String c s)); cbn [andb negb].
    + destruct (digits_value (String c s) =? 0)%N; reflexivity.
    + destruct ((i =? 15)%nat || (i =? 299)%nat); cbn [andb]; [|reflexivity].
      destruct (not_found_message symbol =? w_last_notification w i);
        reflexivity.
Qed.

(** Nothing ends the loop at poll [j]. *)
Let quiet (j : nat) : Prop :=
  shows_number w j = false /\ confirms_not_found w symbol j = false.

Lemma poll_ask_raise_iff (n i : nat) :
  poll_ask w symbol n i = Raise (SymbolNotFound symbol) <->
  exists k, i <= k < i + n /\ confirms_not_found w symbol k = true
            /\ forall j, i <= j < k -> quiet j.
Proof.
  revert i. induction n as [|n IH]; intros i.
  - cbn [poll_ask]. split; [discriminate|]. intros (k & Hk & _). lia.
  - rewrite poll_ask_step.
    destruct (shows_number w i) eqn:Hn.
    + split; [discriminate|]. intros (k & Hk & Hc & Hq).
      destruct (Nat.eq_dec k i) as [->|Hne].
      * unfold confirms_not_found in Hc. unfold shows_number in Hn.
        rewrite Hn in Hc. rewrite andb_false_r in Hc. discriminate.
      * destruct (Hq i ltac:(lia)) as [Hq1 _]. congruence.
    + destruct (confirms_not_found w symbol i) eqn:Hc.
      * split; [intros _|reflexivity]. exists i. repeat split; try lia.
        exact Hc.
      * rewrite IH. split.
        -- intros (k & Hk & Hck & Hq). exists k. repeat split; try lia;
             try assumption.
           ++ destruct (Nat.eq_dec j i) as [->|Hne]; [exact Hn|].
              apply Hq. lia.
           ++ destruct (Nat.eq_dec j i) as [->|Hne]; [exact Hc|].
              apply Hq. lia.
        -- intros (k & Hk & Hck & Hq).
           assert (k <> i) by (intros ->; congruence).
           exists k. repeat split; try lia; try assumption;
             apply Hq; lia.
Qed.

Lemma poll_ask_None_iff (n i : nat) :
  poll_ask w symbol n i = Return PyNone <->
  forall j, i <= j < i + n -> quiet j.
Proof.
  revert i. induction n as [|n IH]; intros i.
  - cbn [poll_ask]. split; [intros _ j Hj; lia | reflexivity].
  - rewrite poll_ask_step.
    destruct (shows_number w i) eqn:Hn.
    + split.
      * destruct (digits_value (strip_price (w_ask w i)) =? 0)%N; discriminate.
      * intros Hq. destruct (Hq i ltac:(lia)) as [Hq1 _]. congruence.
    + destruct (confirms_not_found w symbol i) eqn:Hc.
      * split; [discriminate|].
        intros Hq. destruct (Hq i ltac:(lia)) as [_ Hq2]. congruence.
      * rewrite IH. split.
        -- intros Hq j Hj. destruct (Nat.eq_dec j i) as [->|Hne].
           ++ split; assumption.
           ++ apply Hq. lia.
        -- intros Hq j Hj. apply Hq. lia.
Qed.

End LoadSymbolOutcomes.

(** X1: [load_symbol] ends in one of four ways, [True], [False], [None] or
    the exception for the symbol it was given, and never raises anything
    else; the only thing it does to the page is to type the symbol, once,
    and it does that exactly when the test before the loop does not find
    the symbol already loaded. *)
Theorem load_symbol_outcomes (w : World) (symbol : string) :
  (result (load_symbol w symbol) = Return PyTrue
   \/ result (load_symbol w symbol) = Return PyFalse
   \/ result (load_symbol w symbol) = Return PyNone
   \/ result (load_symbol w symbol) = Raise (SymbolNotFound symbol))
  /\ trace (load_symbol w symbol) =
       if already_loaded w symbol then [] else [type_symbol symbol].
Proof.
  rewrite load_symbol_unfold.
  destruct (already_loaded w symbol); cbn [result trace fst snd].
  - split; [left|]; reflexivity.
  - split; [|reflexivity].
    destruct (poll_ask w symbol 300 0) as [[[|]|]|e|] eqn:E.
    + left. reflexivity.
    + right. left. reflexivity.
    + right. right. left. reflexivity.
    + right. right. right. rewrite (poll_ask_raises w symbol _ _ _ E).
      reflexivity.
    + exfalso. exact (poll_ask_terminates w symbol _ _ E).
Qed.

(** X2: [load_symbol] raises the exception for an unknown symbol exactly
    when the symbol is not found already loaded and there is a poll, the
    one of index 15 or the one of index 299, at which the ask is neither
    empty nor a number and the last notification is 'Symbol not found:
    SYMBOL', no poll before it having shown a number or confirmed the
    same. *)
Theorem load_symbol_not_found_iff (w : World) (symbol : string) :
  result (load_symbol w symbol) = Raise (SymbolNotFound symbol) <->
  already_loaded w symbol = false
  /\ exists k, (k = 15 \/ k = 299)
       /\ confirms_not_found w symbol k = true
       /\ forall j, j < k ->
            shows_number w j = false /\ confirms_not_found w symbol j = false.
Proof.
  rewrite load_symbol_unfold.
  destruct (already_loaded w symbol); cbn [result fst].
  - split; [discriminate | intros [H _]; discriminate].
  - rewrite poll_ask_raise_iff. split.
    + intros (k & Hk & Hc & Hq). split; [reflexivity|].
      exists k. repeat split; try (apply Hq; lia); try assumption.
      unfold confirms_not_found in Hc.
      apply andb_prop in Hc. destruct Hc as [Hc _].
      apply andb_prop in Hc. destruct Hc as [_ Hc].
      apply orb_prop in Hc. destruct Hc as [Hc|Hc];
        apply Nat.eqb_eq in Hc; [left | right]; exact Hc.
    + intros (_ & k & Hk & Hc & Hq). exists k.
      repeat split; try lia; try assumption; apply Hq; lia.
Qed.

(** X3: [load_symbol] runs off the end of its loop and returns [None]
    exactly when the symbol is not found already loaded and none of the
    300 polls shows a number or confirms that the symbol is unknown. *)
Theorem load_symbol_None_iff (w : World) (symbol : string) :
  result (load_symbol w symbol) = Return PyNone <->
  already_loaded w symbol = false
  /\ forall j, j < 300 ->
       shows_number w j = false /\ confirms_not_found w symbol j = false.
Proof.
  rewrite load_symbol_unfold.
  destruct (already_loaded w symbol); cbn [result fst].
  - split; [discriminate | intros [H _]; discriminate].
  - rewrite poll_ask_None_iff. split.
    + intros Hq. split; [reflexivity|]. intros j Hj. apply Hq. lia.
    + intros [_ Hq] j Hj. apply Hq. lia.
Qed.

(* ================================================================== *)
(** ** The case of the symbol *)

Lemma lower_upper_char (c : ascii) : lower_char (upper_char c) = lower_char c.
Proof. destruct c as [[] [] [] [] [] [] [] []]; reflexivity. Qed.

Lemma lower_lower_char (c : ascii) : lower_char (lower_char c) = lower_char c.
Proof. destruct c as [[] [] [] [] [] [] [] []]; reflexivity. Qed.

Lemma upper_upper_char (c : ascii) : upper_char (upper_char c) = upper_char c.
Proof. destruct c as [[] [] [] [] [] [] [] []]; reflexivity. Qed.

Lemma upper_lower_char (c : ascii) : upper_char (lower_char c) = upper_char c.
Proof. destruct c as [[] [] [] [] [] [] [] []]; reflexivity. Qed.

Lemma map_chars_compose (f g h : ascii -> ascii) (s : string) :
  (forall c, f (g c) = h c) -> map_chars f (map_chars g s) = map_chars h s.
Proof.
  intros H. induction s as [|c s IH]; cbn [map_chars].
  - reflexivity.
  - rewrite H, IH. reflexivity.
Qed.

Lemma lower_upper (s : string) : lower (upper s) = lower s.
Proof. apply map_chars_compose, lower_upper_char. Qed.

Lemma lower_lower (s : string) : lower (lower s) = lower s.
Proof. apply map_chars_compose, lower_lower_char. Qed.

Lemma upper_upper (s : string) : upper (upper s) = upper s.
Proof. apply map_chars_compose, upper_upper_char. Qed.

Lemma upper_lower (s : string) : upper (lower s) = upper s.
Proof. apply map_chars_compose, upper_lower_char. Qed.

(** X4: the five order methods do not depend on the case of the symbol:
    called with the symbol in upper case they return the same value, or
    raise the same exception, and do the same to the page as with the
    symbol as it was given. *)
Theorem orders_ignore_symbol_case
    (w : World) (d : Order) (symbol : string) (share_amount : Z)
    (price price' : float) (time_in_force : TIF) :
  limit_order w d (upper symbol) share_amount price time_in_force
    = limit_order w d symbol share_amount price time_in_force
  /\ market_order w d (upper symbol) share_amount time_in_force
       = market_order w d symbol share_amount time_in_force
  /\ stop_market_order w d (upper symbol) share_amount price time_in_force
       = stop_market_order w d symbol share_amount price time_in_force
  /\ stop_limit_order w d (upper symbol) share_amount price price' time_in_force
       = stop_limit_order w d symbol share_amount price price' time_in_force
  /\ range_order w d (upper symbol) share_amount price price' time_in_force
       = range_order w d symbol share_amount price price' time_in_force.
Proof.
  unfold limit_order, market_order, stop_market_order, stop_limit_order,
    range_order.
  rewrite lower_upper. repeat split.
Qed.

(** X5: [load_symbol] drives the page in the same way whatever the case of
    the symbol, and ends in the same way; only the exception, which shows
    the symbol as it was given, differs. *)
Theorem load_symbol_ignores_symbol_case (w : World) (symbol : string) :
  trace (load_symbol w (upper symbol)) = trace (load_symbol w symbol)
  /\ (forall v, result (load_symbol w (upper symbol)) = Return v <->
                result (load_symbol w symbol) = Return v)
  /\ (result (load_symbol w (upper symbol)) = Raise (SymbolNotFound (upper symbol))
      <-> result (load_symbol w symbol) = Raise (SymbolNotFound symbol)).
Proof.
  assert (P : forall n i,
             (forall v, poll_ask w (upper symbol) n i = Return v <->
                        poll_ask w symbol n i = Return v)
             /\ (poll_ask w (upper symbol) n i = Raise (SymbolNotFound (upper symbol))
                 <-> poll_ask w symbol n i = Raise (SymbolNotFound symbol))).
  { induction n as [|n IH]; intros i.
    - cbn [poll_ask]. split; [intros v; reflexivity|].
      split; discriminate.
    - rewrite !poll_ask_step. unfold confirms_not_found, not_found_message.
      rewrite upper_upper.
      destruct (shows_number w i).
      + split; [intros v; reflexivity|]. split; discriminate.
      + destruct (negb (strip_price (w_ask w i) =? "")
                  && negb (isdigit (strip_price (w_ask w i)))
                  && ((i =? 15)%nat || (i =? 299)%nat)
                  && ("Symbol not found: " ++ upper symbol
                        =? w_last_notification w i)).
        * split; [intros v; split; discriminate|].
          split; reflexivity.
        * apply IH. }
  rewrite !load_symbol_unfold.
  unfold already_loaded, type_symbol. rewrite upper_upper, lower_upper.
  destruct ((upper symbol =? current_symbol w)
            && (let price := strip_price (w_ask_before w) in
                isdigit price && (0 <? digits_value price)%N));
    cbn [result trace fst snd].
  - split; [reflexivity|]. split; [intros v; reflexivity|].
    split; discriminate.
  - split; [reflexivity|]. apply P.
Qed.

(* ================================================================== *)
(** ** More about locate_stock *)

Section OfferLoop.

Variable w : World.

(** A total is only ever read after its price per share. *)
Let paired (st : locates) : Prop :=
  forall ty, offer_total st ty <> None -> offer_pps st ty <> None.

Lemma try_read_paired (i : nat) (ty : locate_type) (pps tot : option float) :
  (tot <> None -> pps <> None) ->
  snd (try_read w i ty pps tot) <> None ->
  fst (try_read w i ty pps tot) <> None.
Proof.
  unfold try_read. intros H.
  destruct (w_offer_cell w i ty 2); [|exact H].
  destruct (w_offer_cell w i ty 6); cbn [fst snd]; discriminate.
Qed.

Lemma read_offers_paired (i : nat) (st : locates) :
  paired st -> paired (read_offers w i st).
Proof.
  intros H ty. unfold read_offers.
  destruct ty; cbn [offer_total offer_pps locate_pps_preborrow
    locate_pps_singleuse locate_pps_locate locate_total_preborrow
    locate_total_singleuse locate_total_locate];
    apply try_read_paired.
  - exact (H PreBorrow).
  - exact (H SingleUse).
  - exact (H Locate).
Qed.

Lemma poll_offers_kept (n i : nat) (st0 st : locates) :
  paired st0 -> poll_offers w n i st0 = Some st ->
  any_offer st = true /\ paired st.
Proof.
  revert i st0. induction n as [|n IH]; intros i st0 H0; cbn [poll_offers].
  - discriminate.
  - destruct (any_offer (read_offers w i st0)) eqn:E.
    + intros [= <-]. split; [exact E|]. apply read_offers_paired, H0.
    + apply IH. apply read_offers_paired, H0.
Qed.

Lemma read_offers_nothing (i : nat) :
  (forall ty, w_offer_cell w i ty 2 = None) ->
  read_offers w i no_locates = no_locates.
Proof.
  intros H. unfold read_offers, try_read. rewrite !H. reflexivity.
Qed.

Lemma read_offers_something (i : nat) (ty : locate_type) :
  w_offer_cell w i ty 2 <> None -> any_offer (read_offers w i no_locates) = true.
Proof.
  intros H. unfold read_offers, try_read, any_offer.
  cbn [locate_pps_preborrow locate_pps_singleuse locate_pps_locate no_locates
       locate_total_preborrow locate_total_singleuse locate_total_locate].
  destruct ty.
  - destruct (w_offer_cell w i PreBorrow 2); [|contradiction].
    destruct (w_offer_cell w i PreBorrow 6); reflexivity.
  - destruct (w_offer_cell w i SingleUse 2); [|contradiction].
    destruct (w_offer_cell w i SingleUse 6);
      cbn [fst is_not_None]; rewrite orb_true_r; reflexivity.
  - destruct (w_offer_cell w i Locate 2); [|contradiction].
    destruct (w_offer_cell w i Locate 6);
      cbn [fst is_not_None]; rewrite orb_true_r; reflexivity.
Qed.

Lemma poll_offers_skip (k n i : nat) :
  (forall j ty, i <= j < i + k -> w_offer_cell w j ty 2 = None) ->
  poll_offers w (k + n) i no_locates = poll_offers w n (i + k) no_locates.
Proof.
  revert i. induction k as [|k IH]; intros i H.
  - cbn [Nat.add]. rewrite Nat.add_0_r. reflexivity.
  - cbn [Nat.add poll_offers].
    rewrite read_offers_nothing by (intros ty; apply H; lia).
    change (any_offer no_locates) with false. cbn iota.
    rewrite IH by (intros j ty Hj; apply H; lia).
    f_equal. lia.
Qed.

End OfferLoop.

(** X6: the offers that the loop of [locate_stock] hands to the choice
    hold at least one price per share, and hold a total only for a type
    whose price per share was read. *)
Theorem poll_offers_invariant (w : World) (st : locates) :
  poll_offers w 300 0 no_locates = Some st ->
  any_offer st = true
  /\ forall ty, offer_total st ty <> None -> offer_pps st ty <> None.
Proof.
  apply poll_offers_kept. intros ty. destruct ty; intros H; exact H.
Qed.

Lemma poll_offers_invariant_witness :
  any_offer Samples.three_offers_read = true
  /\ forall ty, offer_total Samples.three_offers_read ty <> None ->
                offer_pps Samples.three_offers_read ty <> None.
Proof.
  apply (poll_offers_invariant Samples.three_offers_page).
  reflexivity.
Defined.

(** X7: the loop over the offer rows stops at the first poll, among its
    300, at which the price per share of some type can be read, with what
    that poll reads; the polls before it leave nothing behind. *)
Theorem poll_offers_first_offer (w : World) (k : nat) (ty : locate_type) :
  k < 300 ->
  (forall j ty', j < k -> w_offer_cell w j ty' 2 = None) ->
  w_offer_cell w k ty 2 <> None ->
  poll_offers w 300 0 no_locates = Some (read_offers w k no_locates).
Proof.
  intros Hk Hnone Hsome.
  replace 300 with (k + S (299 - k)) by lia.
  rewrite poll_offers_skip by (intros j ty' Hj; apply Hnone; lia).
  cbn [Nat.add poll_offers].
  rewrite (read_offers_something w k ty Hsome). reflexivity.
Qed.

Lemma poll_offers_first_offer_witness :
  poll_offers MoreSamples.half_offer_page 300 0 no_locates =
    Some {| locate_pps_preborrow := None;
            locate_pps_singleuse := Some 0.25%float;
            locate_pps_locate := None;
            locate_total_preborrow := None;
            locate_total_singleuse := None;
            locate_total_locate := None |}.
Proof.
  apply (poll_offers_first_offer MoreSamples.half_offer_page 2 SingleUse).
  - lia.
  - intros [|[|j]] ty' Hj; [destruct ty'; reflexivity
                           | destruct ty'; reflexivity | lia].
  - discriminate.
Defined.

Section LocateEnds.

Variables (fuel : nat) (w : World) (symbol : string) (share_amount : Z)
          (max_price : float).

Hypothesis divisible : (share_amount mod 100 = 0)%Z.
Hypothesis loaded : result (load_symbol w symbol) = Return PyTrue.

Lemma locate_stock_after_form :
  locate_stock fuel w symbol share_amount max_price =
    match wait_status w fuel 0 with
    | None => (Spinning,
               trace (load_symbol w symbol)
               ++ locate_form_actions symbol share_amount)
    | Some k =>
        if w_locate_status w (S k) =? "Easy to borrow"
        then (Return (Some {| price_per_share := 0; total := 0 |}),
              trace (load_symbol w symbol)
              ++ locate_form_actions symbol share_amount)
        else
          match poll_offers w 300 0 no_locates with
          | None => (Raise (NoLocateElement symbol),
                     trace (load_symbol w symbol)
                     ++ locate_form_actions symbol share_amount
                     ++ [Click (ById "short-list-button-locate")])
          | Some st =>
              (Return (Some (snd (select_locate st))),
               trace (load_symbol w symbol)
               ++ locate_form_actions symbol share_amount
               ++ [ Click (ById "short-list-button-locate");
                    if (total (snd (select_locate st)) <=? max_price)%float
                    then accept_control symbol (fst (select_locate st))
                    else decline_control symbol (fst (select_locate st)) ])
          end
    end.
Proof.
  unfold locate_stock.
  rewrite (not_divisible_by_100_false _ divisible).
  destruct (load_symbol w symbol) as [o t]. cbn [result trace fst snd] in *.
  subst o.
  destruct (wait_status w fuel 0) as [k|]; [|reflexivity].
  destruct (w_locate_status w (S k) =? "Easy to borrow"); [reflexivity|].
  destruct (poll_offers w 300 0 no_locates) as [st|]; [|reflexivity].
  unfold accept_or_decline.
  destruct (select_locate st) as [ty data]. cbn [fst snd].
  destruct (total data <=? max_price)%float; reflexivity.
Qed.

End LocateEnds.

Lemma wait_status_never (w : World) (fuel n : nat) :
  (forall j, w_locate_status w j = "") -> wait_status w fuel n = None.
Proof.
  intros H. revert n. induction fuel as [|fuel IH]; intros n;
    cbn [wait_status].
  - reflexivity.
  - rewrite H. cbn [String.eqb]. apply IH.
Qed.

Lemma wait_status_first (w : World) (k fuel : nat) :
  (forall j, j < k -> w_locate_status w j = "") ->
  w_locate_status w k <> "" ->
  k < fuel ->
  wait_status w fuel 0 = Some k.
Proof.
  intros Hempty Hshown.
  assert (G : forall m n f, n + m = k -> m < f -> wait_status w f n = Some k).
  { induction m as [|m IH]; intros n f Hn Hf.
    - destruct f as [|f]; [lia|]. cbn [wait_status].
      replace n with k by lia.
      apply String.eqb_neq in Hshown. rewrite Hshown. reflexivity.
    - destruct f as [|f]; [lia|]. cbn [wait_status].
      rewrite (Hempty n) by lia. cbn [String.eqb].
      apply IH; lia. }
  intros Hk. apply (G k 0 fuel); lia.
Qed.

(** X8: when the status that shows is 'Easy to borrow', [locate_stock]
    returns a price per share and a total of zero and has made no bid: the
    locate tab and form are filled in, and neither the locate button nor
    any accept or decline control is clicked. *)
Theorem locate_stock_easy_to_borrow
    (fuel : nat) (w : World) (symbol : string) (share_amount : Z)
    (max_price : float) (k : nat) :
  (share_amount mod 100 = 0)%Z ->
  result (load_symbol w symbol) = Return PyTrue ->
  (forall j, j < k -> w_locate_status w j = "") ->
  w_locate_status w k <> "" ->
  w_locate_status w (S k) = "Easy to borrow" ->
  k < fuel ->
  locate_stock fuel w symbol share_amount max_price =
    (Return (Some {| price_per_share := 0; total := 0 |}),
     trace (load_symbol w symbol) ++ locate_form_actions symbol share_amount).
Proof.
  intros Hdiv Hload Hempty Hshown Heasy Hfuel.
  rewrite (locate_stock_after_form fuel w symbol share_amount max_price
             Hdiv Hload).
  rewrite (wait_status_first w k fuel Hempty Hshown Hfuel), Heasy.
  reflexivity.
Qed.

Lemma locate_stock_easy_to_borrow_witness :
  locate_stock 10 MoreSamples.easy_page "aapl" 200 50 =
    (Return (Some {| price_per_share := 0; total := 0 |}),
     type_symbol "aapl" :: locate_form_actions "aapl" 200).
Proof.
  apply (locate_stock_easy_to_borrow 10 MoreSamples.easy_page "aapl" 200 50 2).
  - reflexivity.
  - reflexivity.
  - intros [|[|j]] Hj; [reflexivity | reflexivity | lia].
  - discriminate.
  - reflexivity.
  - lia.
Defined.

(** X9: the wait for the locate status has no bound: on a page whose
    status never shows, [locate_stock] has filled in the locate form and
    is still waiting, whatever the number of reads it is given. *)
Theorem locate_stock_waits_for_status
    (fuel : nat) (w : World) (symbol : string) (share_amount : Z)
    (max_price : float) :
  (share_amount mod 100 = 0)%Z ->
  result (load_symbol w symbol) = Return PyTrue ->
  (forall j, w_locate_status w j = "") ->
  locate_stock fuel w symbol share_amount max_price =
    (Spinning,
     trace (load_symbol w symbol) ++ locate_form_actions symbol share_amount).
Proof.
  intros Hdiv Hload Hnever.
  rewrite (locate_stock_after_form fuel w symbol share_amount max_price
             Hdiv Hload).
  rewrite (wait_status_never w fuel 0 Hnever). reflexivity.
Qed.

Lemma locate_stock_waits_for_status_witness :
  locate_stock 1000 MoreSamples.no_status_page "aapl" 200 50 =
    (Spinning, type_symbol "aapl" :: locate_form_actions "aapl" 200).
Proof.
  apply (locate_stock_waits_for_status 1000 MoreSamples.no_status_page
           "aapl" 200 50).
  - reflexivity.
  - reflexivity.
  - intros j. reflexivity.
Defined.

(** X10: when none of the 300 polls of the offer rows can read a price per
    share, [locate_stock] raises its exception for the missing offer; it
    has clicked the locate button and no accept or decline control. *)
Theorem locate_stock_no_offer
    (fuel : nat) (w : World) (symbol : string) (share_amount : Z)
    (max_price : float) (k : nat) :
  (share_amount mod 100 = 0)%Z ->
  result (load_symbol w symbol) = Return PyTrue ->
  wait_status w fuel 0 = Some k ->
  w_locate_status w (S k) <> "Easy to borrow" ->
  (forall j ty, j < 300 -> w_offer_cell w j ty 2 = None) ->
  locate_stock fuel w symbol share_amount max_price =
    (Raise (NoLocateElement symbol),
     trace (load_symbol w symbol) ++ locate_form_actions symbol share_amount
     ++ [Click (ById "short-list-button-locate")]).
Proof.
  intros Hdiv Hload Hstatus Hhard Hnone.
  rewrite (locate_stock_after_form fuel w symbol share_amount max_price
             Hdiv Hload).
  rewrite Hstatus. apply String.eqb_neq in Hhard. rewrite Hhard.
  replace 300 with (300 + 0) at 1 by lia.
  rewrite poll_offers_skip by (intros j ty Hj; apply Hnone; lia).
  reflexivity.
Qed.

Lemma locate_stock_no_offer_witness :
  locate_stock 5 Samples.no_offer_page "aapl" 100 20 =
    (Raise (NoLocateElement "aapl"),
     type_symbol "aapl" :: locate_form_actions "aapl" 100
     ++ [Click (ById "short-list-button-locate")]).
Proof.
  apply (locate_stock_no_offer 5 Samples.no_offer_page "aapl" 100 20 3).
  - reflexivity.
  - reflexivity.
  - reflexivity.
  - discriminate.
  - intros j ty Hj. reflexivity.
Defined.

(* ================================================================== *)
(** ** credit_locates, calculate_order_quantity *)

(** X11: [credit_locates] leaves the page alone whenever it raises; it
    returns exactly when the symbol is in the locate inventory and the
    quantity, if one is given, is a multiple of 100 that is not above the
    located shares, which must be readable; and when it returns, the last
    thing it did is the click on the sell button of the symbol. *)
Theorem credit_locates_all_or_nothing
    (w : World) (symbol : string) (quantity : option Z) :
  (forall e, result (credit_locates w symbol quantity) = Raise e ->
             trace (credit_locates w symbol quantity) = [])
  /\ (result (credit_locates w symbol quantity) = Return tt <->
      mem (upper symbol) (w_located_symbols w) = true
      /\ match quantity with
         | None => True
         | Some q => (q mod 100 = 0)%Z
                     /\ exists shares, w_located_shares w = Some shares
                                       /\ Z_gt_float q shares = false
         end)
  /\ (result (credit_locates w symbol quantity) = Return tt ->
      List.last (trace (credit_locates w symbol quantity))
                (Click (ById "")) = Click (InventorySell (upper symbol))).
Proof.
  unfold credit_locates, located_shares.
  destruct (mem (upper symbol) (w_located_symbols w)); cbn [negb].
  2:{ split; [intros e _; reflexivity|].
      split; [split; [discriminate | intros [H _]; discriminate]
             | discriminate]. }
  destruct quantity as [q|].
  2:{ split; [intros e; discriminate|].
      split; [split; [intros _; split; [reflexivity | exact I]
                     | reflexivity]
             | reflexivity]. }
  unfold not_divisible_by_100.
  destruct (Z.eqb_spec (q mod 100) 0) as [Hq|Hq]; cbn [negb].
  2:{ split; [intros e _; reflexivity|].
      split; [split; [discriminate | intros [_ [H _]]; contradiction]
             | discriminate]. }
  destruct (w_located_shares w) as [shares|].
  2:{ split; [intros e _; reflexivity|].
      split; [split; [discriminate
                     | intros [_ [_ (x & H & _)]]; discriminate]
             | discriminate]. }
  cbn. destruct (Z_gt_float q shares) eqn:G; cbn.
  - split; [intros e _; reflexivity|].
    split; [split; [discriminate
                   | intros [_ [_ (x & [= <-] & H)]]; congruence]
           | discriminate].
  - split; [intros e; discriminate|].
    split; [split; [intros _; split; [reflexivity|];
                    split; [exact Hq|]; exists shares; split;
                    [reflexivity | exact G]
                   | reflexivity]
           | reflexivity].
Qed.

(** X12: called on a symbol that loads, with a last price that reads as
    zero, [calculate_order_quantity] raises [ZeroDivisionError] whatever
    the buying power and the option; with a last price that cannot be read
    it raises the [ValueError] of the conversion. *)
Theorem calculate_order_quantity_bad_price
    (w : World) (symbol : string) (buying_power : float)
    (float_option : bool) (v : pybool) :
  result (load_symbol w symbol) = Return v ->
  v <> PyFalse ->
  (forall price, w_last w = Some price -> (price =? 0)%float = true ->
     result (calculate_order_quantity w symbol buying_power float_option)
       = Raise DivisionByZero)
  /\ (w_last w = None ->
      result (calculate_order_quantity w symbol buying_power float_option)
        = Raise BadFloatText).
Proof.
  intros Hload Hv. unfold calculate_order_quantity, last, float_div.
  destruct (load_symbol w symbol) as [o t]. cbn [result fst] in Hload.
  subst o. split.
  - intros price Hp Hz. rewrite Hp.
    destruct v as [[|]|]; try (exfalso; apply Hv; reflexivity);
      cbn; rewrite Hz; reflexivity.
  - intros Hp. rewrite Hp.
    destruct v as [[|]|]; try (exfalso; apply Hv; reflexivity); reflexivity.
Qed.

Lemma calculate_order_quantity_bad_price_witness :
  result (calculate_order_quantity MoreSamples.zero_price_page "aapl" 1000 false)
    = Raise DivisionByZero.
Proof.
  refine (proj1 (calculate_order_quantity_bad_price
                   MoreSamples.zero_price_page "aapl" 1000 false PyTrue _ _)
                (- 0)%float _ _).
  - reflexivity.
  - discriminate.
  - reflexivity.
  - reflexivity.
Defined.

(** X13: when [load_symbol] runs off the end of its loop and returns
    [None], [locate_stock] gives up and returns [None], while
    [calculate_order_quantity], which only tests for [False], goes on and
    divides the buying power by the last price. *)
Theorem exhausted_load_is_read_two_ways
    (fuel : nat) (w : World) (symbol : string) (share_amount : Z)
    (max_price buying_power price : float) :
  (share_amount mod 100 = 0)%Z ->
  result (load_symbol w symbol) = Return PyNone ->
  w_last w = Some price ->
  (price =? 0)%float = false ->
  locate_stock fuel w symbol share_amount max_price =
    (Return PyNone, [type_symbol symbol])
  /\ calculate_order_quantity w symbol buying_power true =
       (Return (Some (PyFloat (buying_power / price))), [type_symbol symbol]).
Proof.
  intros Hdiv Hload Hp Hz.
  pose proof (load_symbol_outcomes w symbol) as [_ T].
  assert (A : already_loaded w symbol = false).
  { destruct (already_loaded w symbol) eqn:E; [|reflexivity].
    rewrite load_symbol_unfold, E in Hload. discriminate. }
  rewrite A in T.
  unfold locate_stock, calculate_order_quantity, last, float_div.
  rewrite (not_divisible_by_100_false _ Hdiv), Hp.
  destruct (load_symbol w symbol) as [o t]. cbn [result trace fst snd] in *.
  subst o t. cbn. rewrite Hz. split; reflexivity.
Qed.

Lemma exhausted_load_is_read_two_ways_witness :
  locate_stock 5 Samples.silent_page "aapl" 100 20 =
    (Return PyNone, [type_symbol "aapl"])
  /\ calculate_order_quantity Samples.silent_page "aapl" 374.5 true =
       (Return (Some (PyFloat 2)), [type_symbol "aapl"]).
Proof.
  apply (exhausted_load_is_read_two_ways 5 Samples.silent_page "aapl" 100 20
           374.5 187.25).
  - reflexivity.
  - rewrite load_symbol_unfold.
    change (already_loaded Samples.silent_page "aapl") with false. cbn iota.
    cbn [result fst]. apply poll_ask_all_empty. intros j. reflexivity.
  - reflexivity.
  - reflexivity.
Defined.

(* ================================================================== *)
(** ** More about the order methods *)

Section OrderRuns.

Variables (w : World) (d : Order) (symbol : string) (share_amount : Z)
          (price price' : float) (time_in_force : TIF).

Variables (v : pybool) (t : list action).
Hypothesis loaded : load_symbol w (lower symbol) = (Return v, t).
Hypothesis in_session : time_between (9, 30)%N (16, 0)%N (w_now w) = true.

Lemma after_submit_run :
  after_submit w (Order_value d) =
    (Return (if (Order_value d =? Order_value SHORT) && w_popup_cancel w
             then PyFalse else PyTrue),
     popup_actions w d).
Proof.
  unfold after_submit, popup_actions.
  destruct (Order_value d =? Order_value SHORT), (w_popup_cancel w);
    reflexivity.
Qed.

Lemma limit_order_full :
  limit_order w d symbol share_amount price time_in_force =
    (Return (if (Order_value d =? Order_value SHORT) && w_popup_cancel w
             then PyFalse else PyTrue),
     t ++ order_form_actions 1 time_in_force share_amount
            [("trading-order-input-price", price)] d
       ++ popup_actions w d).
Proof.
  unfold limit_order.
  rewrite time_in_force_accepted,
    (fill_order_form_run w symbol share_amount time_in_force v t loaded),
    after_submit_run.
  unfold order_form_actions. cbn. rewrite <- !app_assoc. reflexivity.
Qed.

Lemma market_order_full :
  market_order w d symbol share_amount time_in_force =
    (Return (if (Order_value d =? Order_value SHORT) && w_popup_cancel w
             then PyFalse else PyTrue),
     t ++ order_form_actions 0 time_in_force share_amount [] d
       ++ popup_actions w d).
Proof.
  unfold market_order.
  rewrite in_session, time_in_force_accepted,
    (fill_order_form_run w symbol share_amount time_in_force v t loaded),
    after_submit_run.
  unfold order_form_actions. cbn. rewrite <- !app_assoc. reflexivity.
Qed.

Lemma stop_market_order_full :
  stop_market_order w d symbol share_amount price time_in_force =
    (Return PyNone,
     t ++ order_form_actions 2 time_in_force share_amount
            [("trading-order-input-sprice", price)] d).
Proof.
  unfold stop_market_order.
  rewrite in_session, time_in_force_accepted,
    (fill_order_form_run w symbol share_amount time_in_force v t loaded).
  unfold order_form_actions. cbn. rewrite <- !app_assoc. reflexivity.
Qed.

Lemma stop_limit_order_full :
  stop_limit_order w d symbol share_amount price price' time_in_force =
    (Return PyNone,
     t ++ order_form_actions 3 time_in_force share_amount
            [("trading-order-input-price", price);
             ("trading-order-input-sprice", price')] d).
Proof.
  unfold stop_limit_order.
  rewrite time_in_force_accepted,
    (fill_order_form_run w symbol share_amount time_in_force v t loaded).
  unfold order_form_actions. cbn. rewrite <- !app_assoc. reflexivity.
Qed.

Lemma range_order_full :
  range_order w d symbol share_amount price price' time_in_force =
    (Return PyNone,
     t ++ order_form_actions 6 time_in_force share_amount
            [("trading-order-input-price", price);
             ("trading-order-input-sprice", price')] d).
Proof.
  unfold range_order.
  rewrite time_in_force_accepted,
    (fill_order_form_run w symbol share_amount time_in_force v t loaded).
  unfold order_form_actions. cbn. rewrite <- !app_assoc. reflexivity.
Qed.

End OrderRuns.

(** X14: once the symbol is loaded without an exception, each order
    method selects the order type of its kind by its index in the menu
    (market 0, limit 1, stop market 2, stop limit 3, range 6), selects the
    time in force by its label, types the quantity and then its prices
    (the limit price before the stop price, the low price before the high
    price) and clicks the button of the direction; [limit_order] and
    [market_order] then handle the locate popup of a short order, and the
    three others return no value. *)
Theorem order_methods_fill_their_form
    (w : World) (d : Order) (symbol : string) (share_amount : Z)
    (price price' : float) (time_in_force : TIF) (v : pybool) :
  result (load_symbol w (lower symbol)) = Return v ->
  let t := trace (load_symbol w (lower symbol)) in
  let signal := if (Order_value d =? Order_value SHORT) && w_popup_cancel w
                then PyFalse else PyTrue in
  limit_order w d symbol share_amount price time_in_force =
    (Return signal,
     t ++ order_form_actions 1 time_in_force share_amount
            [("trading-order-input-price", price)] d
       ++ popup_actions w d)
  /\ stop_limit_order w d symbol share_amount price price' time_in_force =
       (Return PyNone,
        t ++ order_form_actions 3 time_in_force share_amount
               [("trading-order-input-price", price);
                ("trading-order-input-sprice", price')] d)
  /\ range_order w d symbol share_amount price price' time_in_force =
       (Return PyNone,
        t ++ order_form_actions 6 time_in_force share_amount
               [("trading-order-input-price", price);
                ("trading-order-input-sprice", price')] d)
  /\ (time_between (9, 30)%N (16, 0)%N (w_now w) = true ->
      market_order w d symbol share_amount time_in_force =
        (Return signal,
         t ++ order_form_actions 0 time_in_force share_amount [] d
           ++ popup_actions w d)
      /\ stop_market_order w d symbol share_amount price time_in_force =
           (Return PyNone,
            t ++ order_form_actions 2 time_in_force share_amount
                   [("trading-order-input-sprice", price)] d)).
Proof.
  intros Hload t signal. subst t signal.
  destruct (load_symbol w (lower symbol)) as [o t] eqn:E.
  cbn [result trace fst snd] in *. subst o.
  split; [|split; [|split; [|intros Hs; split]]].
  - exact (limit_order_full w d symbol share_amount price time_in_force v t E).
  - exact (stop_limit_order_full w d symbol share_amount price price'
             time_in_force v t E).
  - exact (range_order_full w d symbol share_amount price price'
             time_in_force v t E).
  - exact (market_order_full w d symbol share_amount time_in_force v t E Hs).
  - exact (stop_market_order_full w d symbol share_amount price time_in_force
             v t E Hs).
Qed.

Lemma order_methods_fill_their_form_witness :
  stop_limit_order Samples.open_page SELL "AAPL" 10 180 185 GTC =
    (Return PyNone,
     [ type_symbol "aapl";
       SelectByIndex (ById "trading-order-select-type") 3;
       SelectByVisibleText (ById "trading-order-select-time") "GTC";
       Clear (ById "trading-order-input-quantity");
       SendKeys (ById "trading-order-input-quantity") (KInt 10) false;
       Clear (ById "trading-order-input-price");
       SendKeys (ById "trading-order-input-price") (KFloat 180) false;
       Clear (ById "trading-order-input-sprice");
       SendKeys (ById "trading-order-input-sprice") (KFloat 185) false;
       Click (ById "trading-order-button-sell") ]).
Proof.
  refine (proj1 (proj2 (order_methods_fill_their_form
                          Samples.open_page SELL "AAPL" 10 180 185 GTC
                          PyTrue _))).
  reflexivity.
Defined.

Section OrderFailures.

Variables (w : World) (d : Order) (symbol : string) (share_amount : Z)
          (price price' : float) (time_in_force : TIF).

(** What an order method comes to when the loading of the symbol does not
    return. *)
Variables (e : exn) (t : list action).
Hypothesis not_loaded : load_symbol w (lower symbol) = (Raise e, t).

Lemma fill_order_form_fails (type_index : nat) :
  fill_order_form w (lower symbol) type_index (TIF_value time_in_force)
                  share_amount = (Raise e, t).
Proof.
  unfold fill_order_form. rewrite not_loaded. reflexivity.
Qed.

Lemma limit_order_fails :
  limit_order w d symbol share_amount price time_in_force = (Raise e, t).
Proof.
  unfold limit_order. rewrite time_in_force_accepted, fill_order_form_fails.
  reflexivity.
Qed.

Lemma stop_limit_order_fails :
  stop_limit_order w d symbol share_amount price price' time_in_force
    = (Raise e, t).
Proof.
  unfold stop_limit_order.
  rewrite time_in_force_accepted, fill_order_form_fails. reflexivity.
Qed.

Lemma range_order_fails :
  range_order w d symbol share_amount price price' time_in_force
    = (Raise e, t).
Proof.
  unfold range_order.
  rewrite time_in_force_accepted, fill_order_form_fails. reflexivity.
Qed.

Lemma market_order_fails :
  time_between (9, 30)%N (16, 0)%N (w_now w) = true ->
  market_order w d symbol share_amount time_in_force = (Raise e, t).
Proof.
  intros Hs. unfold market_order.
  rewrite Hs, time_in_force_accepted, fill_order_form_fails. reflexivity.
Qed.

Lemma stop_market_order_fails :
  time_between (9, 30)%N (16, 0)%N (w_now w) = true ->
  stop_market_order w d symbol share_amount price time_in_force = (Raise e, t).
Proof.
  intros Hs. unfold stop_market_order.
  rewrite Hs, time_in_force_accepted, fill_order_form_fails. reflexivity.
Qed.

End OrderFailures.

(** X15: when the loading of the symbol raises, every order method raises
    the same exception and has touched nothing of the order form: the
    page has only seen what [load_symbol] did. *)
Theorem order_methods_stop_at_unknown_symbol
    (w : World) (d : Order) (symbol : string) (share_amount : Z)
    (price price' : float) (time_in_force : TIF) (e : exn) :
  result (load_symbol w (lower symbol)) = Raise e ->
  let t := trace (load_symbol w (lower symbol)) in
  limit_order w d symbol share_amount price time_in_force = (Raise e, t)
  /\ stop_limit_order w d symbol share_amount price price' time_in_force
       = (Raise e, t)
  /\ range_order w d symbol share_amount price price' time_in_force
       = (Raise e, t)
  /\ (time_between (9, 30)%N (16, 0)%N (w_now w) = true ->
      market_order w d symbol share_amount time_in_force = (Raise e, t)
      /\ stop_market_order w d symbol share_amount price time_in_force
           = (Raise e, t)).
Proof.
  intros Hload t. subst t.
  destruct (load_symbol w (lower symbol)) as [o t] eqn:E.
  cbn [result trace fst snd] in *. subst o.
  split; [|split; [|split; [|intros Hs; split]]].
  - exact (limit_order_fails w d symbol share_amount price time_in_force e t E).
  - exact (stop_limit_order_fails w d symbol share_amount price price'
             time_in_force e t E).
  - exact (range_order_fails w d symbol share_amount price price'
             time_in_force e t E).
  - exact (market_order_fails w d symbol share_amount time_in_force e t E Hs).
  - exact (stop_market_order_fails w d symbol share_amount price time_in_force
             e t E Hs).
Qed.

Lemma order_methods_stop_at_unknown_symbol_witness :
  limit_order MoreSamples.dash_page BUY "ZZZZ" 10 180 DAY =
    (Raise (SymbolNotFound "zzzz"), [type_symbol "zzzz"]).
Proof.
  refine (proj1 (order_methods_stop_at_unknown_symbol
                   MoreSamples.dash_page BUY "ZZZZ" 10 180 185 DAY
                   (SymbolNotFound "zzzz") _)).
  reflexivity.
Defined.

Section OrderEnds.

Variables (w : World) (d : Order) (symbol : string) (share_amount : Z)
          (price price' : float) (time_in_force : TIF).

Lemma load_symbol_cases :
  (exists v t, load_symbol w (lower symbol) = (Return v, t)
               /\ (t = [] \/ t = [type_symbol (lower symbol)]))
  \/ (exists t, load_symbol w (lower symbol)
                  = (Raise (SymbolNotFound (lower symbol)), t)
                /\ (t = [] \/ t = [type_symbol (lower symbol)])).
Proof.
  pose proof (load_symbol_trace w (lower symbol)) as T.
  pose proof (load_symbol_raises w (lower symbol)) as R.
  pose proof (load_symbol_terminates w (lower symbol)) as N.
  destruct (load_symbol w (lower symbol)) as [[v|e|] t];
    cbn [result trace fst snd] in *.
  - left. exists v, t. split; [reflexivity | exact T].
  - right. exists t. rewrite (R e eq_refl). split; [reflexivity | exact T].
  - contradiction.
Qed.

Lemma market_order_closed :
  time_between (9, 30)%N (16, 0)%N (w_now w) = false ->
  market_order w d symbol share_amount time_in_force =
    (Raise (MarketOrdersNotAllowed (w_now w)), []).
Proof. intros Hs. unfold market_order. rewrite Hs. reflexivity. Qed.

Lemma stop_market_order_closed :
  time_between (9, 30)%N (16, 0)%N (w_now w) = false ->
  stop_market_order w d symbol share_amount price time_in_force =
    (Raise (StopMarketOrdersNotAllowed (w_now w)), []).
Proof. intros Hs. unfold stop_market_order. rewrite Hs. reflexivity. Qed.

Lemma no_cancel_in_load (t : list action) :
  t = [] \/ t = [type_symbol (lower symbol)] -> ~ In cancel_popup t.
Proof.
  intros [-> | ->] H; cbn in H.
  - exact H.
  - destruct H as [H|[]]. discriminate H.
Qed.

Lemma no_cancel_in_form (type_index : nat) (prices : list (string * float)) :
  ~ In cancel_popup
       (order_form_actions type_index time_in_force share_amount prices d).
Proof.
  unfold order_form_actions. intros H.
  apply in_app_or in H. destruct H as [H|H].
  - cbn in H. repeat (destruct H as [H|H]; [discriminate H|]). exact H.
  - apply in_app_or in H. destruct H as [H|H].
    + apply in_flat_map in H. destruct H as (f & _ & H).
      cbn in H. repeat (destruct H as [H|H]; [discriminate H|]). exact H.
    + cbn in H. destruct H as [H|[]]. destruct d; discriminate H.
Qed.

Lemma in_three (a : action) (l1 l2 l3 : list action) :
  In a (l1 ++ l2 ++ l3) -> In a l1 \/ In a l2 \/ In a l3.
Proof.
  intros H. apply in_app_or in H. destruct H as [H|H]; [left; exact H|].
  apply in_app_or in H. destruct H as [H|H]; [right; left | right; right];
    exact H.
Qed.

Lemma cancel_in_popup_actions :
  In cancel_popup (popup_actions w d) -> d = SHORT /\ w_popup_cancel w = true.
Proof.
  unfold popup_actions.
  destruct d, (w_popup_cancel w); cbn; intros H;
    try contradiction; split; reflexivity.
Qed.

End OrderEnds.

(** X16: the only exception that [limit_order], [stop_limit_order] and
    [range_order] raise is the one of [load_symbol] for an unknown symbol;
    [market_order] and [stop_market_order] raise that one or their own for
    the market hours.  The test on the time in force never raises for a
    member of the enumeration. *)
Theorem order_methods_exceptions
    (w : World) (d : Order) (symbol : string) (share_amount : Z)
    (price price' : float) (time_in_force : TIF) (e : exn) :
  (result (limit_order w d symbol share_amount price time_in_force) = Raise e
   -> e = SymbolNotFound (lower symbol))
  /\ (result (stop_limit_order w d symbol share_amount price price'
                               time_in_force) = Raise e
      -> e = SymbolNotFound (lower symbol))
  /\ (result (range_order w d symbol share_amount price price' time_in_force)
        = Raise e
      -> e = SymbolNotFound (lower symbol))
  /\ (result (market_order w d symbol share_amount time_in_force) = Raise e
      -> e = SymbolNotFound (lower symbol)
         \/ e = MarketOrdersNotAllowed (w_now w))
  /\ (result (stop_market_order w d symbol share_amount price time_in_force)
        = Raise e
      -> e = SymbolNotFound (lower symbol)
         \/ e = StopMarketOrdersNotAllowed (w_now w)).
Proof.
  destruct (time_between (9, 30)%N (16, 0)%N (w_now w)) eqn:Hs;
  destruct (load_symbol_cases w symbol) as [(v & t & E & _)|(t & E & _)].
  all: (split; [|split; [|split; [|split]]]).
  all: try rewrite (limit_order_full w d symbol share_amount price
                      time_in_force v t E).
  all: try rewrite (stop_limit_order_full w d symbol share_amount price price'
                      time_in_force v t E).
  all: try rewrite (range_order_full w d symbol share_amount price price'
                      time_in_force v t E).
  all: try rewrite (market_order_full w d symbol share_amount time_in_force
                      v t E Hs).
  all: try rewrite (stop_market_order_full w d symbol share_amount price
                      time_in_force v t E Hs).
  all: try rewrite (limit_order_fails w d symbol share_amount price
                      time_in_force _ t E).
  all: try rewrite (stop_limit_order_fails w d symbol share_amount price price'
                      time_in_force _ t E).
  all: try rewrite (range_order_fails w d symbol share_amount price price'
                      time_in_force _ t E).
  all: try rewrite (market_order_fails w d symbol share_amount time_in_force
                      _ t E Hs).
  all: try rewrite (stop_market_order_fails w d symbol share_amount price
                      time_in_force _ t E Hs).
  all: try rewrite (market_order_closed w d symbol share_amount time_in_force
                      Hs).
  all: try rewrite (stop_market_order_closed w d symbol share_amount price
                      time_in_force Hs).
  all: cbn [result fst]; intros H; try discriminate H;
    injection H as <-; auto.
Qed.

(** X17: the cancel button of the locate popup is clicked by [limit_order]
    and [market_order] only, and only for a short order whose popup takes
    the click; the three other methods never click it. *)
Theorem cancel_popup_only_after_short
    (w : World) (d : Order) (symbol : string) (share_amount : Z)
    (price price' : float) (time_in_force : TIF) :
  (In cancel_popup
      (trace (limit_order w d symbol share_amount price time_in_force))
   -> d = SHORT /\ w_popup_cancel w = true)
  /\ (In cancel_popup
         (trace (market_order w d symbol share_amount time_in_force))
      -> d = SHORT /\ w_popup_cancel w = true)
  /\ ~ In cancel_popup
          (trace (stop_market_order w d symbol share_amount price
                                    time_in_force))
  /\ ~ In cancel_popup
          (trace (stop_limit_order w d symbol share_amount price price'
                                   time_in_force))
  /\ ~ In cancel_popup
          (trace (range_order w d symbol share_amount price price'
                              time_in_force)).
Proof.
  destruct (time_between (9, 30)%N (16, 0)%N (w_now w)) eqn:Hs;
  destruct (load_symbol_cases w symbol) as [(v & t & E & T)|(t & E & T)].
  all: pose proof (no_cancel_in_load symbol t T) as NT.
  all: (split; [|split; [|split; [|split]]]).
  all: try rewrite (limit_order_full w d symbol share_amount price
                      time_in_force v t E).
  all: try rewrite (stop_limit_order_full w d symbol share_amount price price'
                      time_in_force v t E).
  all: try rewrite (range_order_full w d symbol share_amount price price'
                      time_in_force v t E).
  all: try rewrite (market_order_full w d symbol share_amount time_in_force
                      v t E Hs).
  all: try rewrite (stop_market_order_full w d symbol share_amount price
                      time_in_force v t E Hs).
  all: try rewrite (limit_order_fails w d symbol share_amount price
                      time_in_force _ t E).
  all: try rewrite (stop_limit_order_fails w d symbol share_amount price price'
                      time_in_force _ t E).
  all: try rewrite (range_order_fails w d symbol share_amount price price'
                      time_in_force _ t E).
  all: try rewrite (market_order_fails w d symbol share_amount time_in_force
                      _ t E Hs).
  all: try rewrite (stop_market_order_fails w d symbol share_amount price
                      time_in_force _ t E Hs).
  all: try rewrite (market_order_closed w d symbol share_amount time_in_force
                      Hs).
  all: try rewrite (stop_market_order_closed w d symbol share_amount price
                      time_in_force Hs).
  all: cbn [trace snd]; intros H.
  all: match type of H with
       | In _ (_ ++ order_form_actions _ _ _ _ _ ++ popup_actions _ _) =>
           apply in_three in H; destruct H as [H|[H|H]]
       | In _ (_ ++ order_form_actions _ _ _ _ _) =>
           apply in_app_or in H; destruct H as [H|H]
       | _ => idtac
       end.
  all: try (exfalso; exact (NT H)).
  all: try (exfalso;
            exact (no_cancel_in_form d share_amount time_in_force _ _ H)).
  all: try (apply cancel_in_popup_actions in H; exact H).
  all: try exact H.
  all: destruct H.
Qed.

(* ================================================================== *)
(** ** The connection methods *)

Section Probes.

Variable s : Session.

Lemma dom_fully_loaded_shape (n p : nat) :
  exists b p',
    dom_fully_loaded s n p = (Done b, [], p')
    /\ (b = true <-> portfolio_shown s p n)
    /\ p <= p' <= p + n
    /\ (b = false -> p' = p + n).
Proof.
  revert p. induction n as [|n IH]; intros p; cbn [dom_fully_loaded].
  - exists false, p. repeat split; try lia; try discriminate.
    intros (k & Hk & _). lia.
  - destruct (mem "Portfolio" (s_headings s p)) eqn:E.
    + exists true, (S p). repeat split; try lia; try discriminate.
      intros _. exists p. split; [lia | exact E].
    + destruct (IH (S p)) as (b & p' & -> & Hb & Hp & Hf).
      exists b, p'. repeat split; try lia.
      * intros Hb'. apply Hb in Hb'. destruct Hb' as (k & Hk & Hm).
        exists k. split; [lia | exact Hm].
      * intros (k & Hk & Hm). apply Hb.
        destruct (Nat.eq_dec k p) as [->|Hne]; [congruence|].
        exists k. split; [lia | exact Hm].
      * intros Hb'. rewrite (Hf Hb'). lia.
Qed.

End Probes.

(** X18: [_dom_fully_loaded] does nothing to the page; it returns [True]
    exactly when one of its [iter_amount] probes shows the heading
    'Portfolio', makes no more than [iter_amount] probes, and makes them
    all before it returns [False] (none when [iter_amount] is zero). *)
Theorem dom_fully_loaded_probes (s : Session) (iter_amount p : nat) :
  exists b p',
    dom_fully_loaded s iter_amount p = (Done b, [], p')
    /\ (b = true <-> portfolio_shown s p iter_amount)
    /\ p <= p' <= p + iter_amount
    /\ (b = false -> p' = p + iter_amount).
Proof. apply dom_fully_loaded_shape. Qed.

Section Connection.

Variable s : Session.

(** The actions of [login] up to its wait, and after it. *)
Let typed : list session_action :=
  [ OnPage (SendKeys (ById "login") (KStr (self_user_name s)) false);
    OnPage (SendKeys (ById "password") (KStr (self_password s)) true) ].

Let hidden : list session_action :=
  if self_hide_attributes s then [HideAttributes] else [].

Lemma login_run (p : nat) :
  exists p', p <= p' /\
  login s p =
    if negb (s_login_field s) then
      (Failed (NoSuchElementException "login"), [], p)
    else if negb (s_password_field s) then
      (Failed (NoSuchElementException "password"),
       [OnPage (SendKeys (ById "login") (KStr (self_user_name s)) false)], p)
    else if negb (s_order_type_menu s) then
      (Failed (NoSuchElementException "trading-order-select-type"),
       typed ++ hidden, p')
    else
      (Done tt,
       typed ++ hidden
       ++ [ OnPage (SelectByIndex (ById "trading-order-select-type") 1);
            Get TZ_HOME_URL; DumpCookies ], p').
Proof.
  destruct (dom_fully_loaded_shape s 150 p) as (b & p' & E & _ & Hp & _).
  exists p'. split; [lia|].
  unfold login, cbind, find_element, cact, cret, craise, typed, hidden.
  destruct (s_login_field s); [|reflexivity].
  destruct (s_password_field s); [|reflexivity].
  rewrite E.
  destruct (self_hide_attributes s), (s_order_type_menu s); reflexivity.
Qed.

(** What the handler of [conn] does, from probe [p]. *)
Lemma refresh_run (p : nat) :
  exists b p',
    (b = true <-> portfolio_shown s p 150) /\
    cbind (cact (Get TZ_HOME_URL)) (fun _ =>
      cbind (dom_fully_loaded s 150) (fun loaded =>
        if loaded then
          cbind (if self_hide_attributes s then cact HideAttributes
                 else cret tt) (fun _ =>
          cbind (cact RestoreWatchlist) (fun _ => cret (Some true)))
        else cret None)) p =
    if b then (Done (Some true),
               Get TZ_HOME_URL :: hidden ++ [RestoreWatchlist], p')
    else (Done None, [Get TZ_HOME_URL], p').
Proof.
  destruct (dom_fully_loaded_shape s 150 p) as (b & p' & E & Hb & _ & _).
  exists b, p'. split; [exact Hb|].
  unfold cbind, cact, cret, hidden. rewrite E.
  destruct b; [|reflexivity].
  destruct (self_hide_attributes s); reflexivity.
Qed.

(** The [try] statement of [conn], case by case: either the login goes
    through; or an element is missing, before or after the wait of
    [login], and the page is loaded again and watched from probe [p0]. *)
Lemma reconnect_run (p : nat) :
  (s_login_form s && s_login_field s && s_password_field s
   && s_order_type_menu s = true
   /\ exists p1,
        reconnect s p =
          (Done (Some true),
           typed ++ hidden
           ++ [ OnPage (SelectByIndex (ById "trading-order-select-type") 1);
                Get TZ_HOME_URL; DumpCookies; RestoreWatchlist ], p1))
  \/ (s_login_form s && s_login_field s && s_password_field s
      && s_order_type_menu s = false
      /\ exists before p0 b p2,
           p <= p0
           /\ (s_login_form s = false -> p0 = p /\ before = [])
           /\ (b = true <-> portfolio_shown s p0 150)
           /\ reconnect s p =
                (Done (if b then Some true else None),
                 before ++ Get TZ_HOME_URL
                   :: (if b then hidden ++ [RestoreWatchlist] else []), p2)).
Proof.
  destruct (login_run p) as (p1 & Hp1 & L).
  unfold reconnect.
  match goal with
  | |- context [except_NoSuchElement ?body ?h] => set (handler := h)
  end.
  unfold except_NoSuchElement, cbind, find_element, cret, craise.
  destruct (s_login_form s); cbn [andb].
  - rewrite L.
    destruct (s_login_field s); cbn [andb negb].
    + destruct (s_password_field s); cbn [andb negb].
      * destruct (s_order_type_menu s); cbn [negb].
        -- left. split; [reflexivity|]. exists p1.
           unfold cact. cbn. rewrite <- !app_assoc. reflexivity.
        -- right. split; [reflexivity|].
           destruct (refresh_run p1) as (b & p2 & Hb & R).
           exists (typed ++ hidden), p1, b, p2.
           split; [exact Hp1|]. split; [discriminate|]. split; [exact Hb|].
           unfold handler. rewrite R. destruct b; reflexivity.
      * right. split; [reflexivity|].
        destruct (refresh_run p) as (b & p2 & Hb & R).
        exists [OnPage (SendKeys (ById "login") (KStr (self_user_name s)) false)],
               p, b, p2.
        split; [lia|]. split; [discriminate|]. split; [exact Hb|].
        unfold handler. rewrite R. destruct b; reflexivity.
    + right. split; [reflexivity|].
      destruct (refresh_run p) as (b & p2 & Hb & R).
      exists [], p, b, p2.
      split; [lia|]. split; [discriminate|]. split; [exact Hb|].
      unfold handler. rewrite R. destruct b; reflexivity.
  - right. split; [reflexivity|].
    destruct (refresh_run p) as (b & p2 & Hb & R).
    exists [], p, b, p2.
    split; [lia|]. split; [intros _; split; reflexivity|]. split; [exact Hb|].
    unfold handler. rewrite R. destruct b; reflexivity.
Qed.

Lemma conn_connected :
  mem "Portfolio" (s_headings s 0) = true -> conn s 0 = (Done true, [], 1).
Proof.
  intros H. unfold conn, cbind. cbn [dom_fully_loaded]. rewrite H.
  reflexivity.
Qed.

Lemma conn_disconnected :
  mem "Portfolio" (s_headings s 0) = false ->
  conn s 0 =
    match reconnect s 1 with
    | (Done (Some b), t, p) => (Done b, t, p)
    | (Done None, t, p) => (Failed ReconnectFailed, t, p)
    | (Failed e, t, p) => (Failed e, t, p)
    end.
Proof.
  intros H. unfold conn, cbind. cbn [dom_fully_loaded]. rewrite H.
  destruct (reconnect s 1) as [[[[b|]|e] t] p];
    unfold cret, craise; cbn; rewrite ?app_nil_r; reflexivity.
Qed.

End Connection.

(** X19: [conn] on a page that already shows the portfolio makes its one
    probe, does nothing and returns [True]; and that is the only way for
    it to end without having done anything. *)
Theorem conn_connected_is_noop (s : Session) :
  (mem "Portfolio" (s_headings s 0) = true -> run (conn s) = (Done true, []))
  /\ (snd (run (conn s)) = [] -> mem "Portfolio" (s_headings s 0) = true).
Proof.
  unfold run. split.
  - intros H. rewrite (conn_connected s H). reflexivity.
  - destruct (mem "Portfolio" (s_headings s 0)) eqn:E; [reflexivity|].
    rewrite (conn_disconnected s E).
    destruct (reconnect_run s 1) as [(_ & p1 & ->)
                                    |(_ & before & p0 & b & p2 & _ & _ & _ & ->)].
    + cbn. discriminate.
    + destruct b; cbn [fst snd]; intros H;
        apply app_eq_nil in H; destruct H as [_ H]; discriminate H.
Qed.

Lemma conn_connected_is_noop_witness :
  run (conn MoreSamples.ready_session) = (Done true, []).
Proof.
  apply (proj1 (conn_connected_is_noop MoreSamples.ready_session)).
  reflexivity.
Defined.

(** X20: [conn] either returns [True] or raises its exception for the
    failed reconnection: no [NoSuchElementException] of its [try] block
    leaves it.  Whenever it returns [True] after having done anything, the
    last thing it did is to restore the watchlist. *)
Theorem conn_outcomes (s : Session) :
  (fst (run (conn s)) = Done true
   /\ (snd (run (conn s)) = []
       \/ List.last (snd (run (conn s))) DumpCookies = RestoreWatchlist))
  \/ fst (run (conn s)) = Failed ReconnectFailed.
Proof.
  unfold run.
  destruct (mem "Portfolio" (s_headings s 0)) eqn:E.
  - left. rewrite (conn_connected s E). split; [reflexivity | left; reflexivity].
  - rewrite (conn_disconnected s E).
    destruct (reconnect_run s 1) as [(_ & p1 & ->)
                                    |(_ & before & p0 & b & p2 & _ & _ & _ & ->)].
    + left. cbn [fst snd]. split; [reflexivity|]. right.
      rewrite !app_assoc.
      change [OnPage (SelectByIndex (ById "trading-order-select-type") 1);
              Get TZ_HOME_URL; DumpCookies; RestoreWatchlist]
        with ([OnPage (SelectByIndex (ById "trading-order-select-type") 1);
               Get TZ_HOME_URL; DumpCookies] ++ [RestoreWatchlist]).
      rewrite !app_assoc. apply last_last.
    + destruct b; cbn [fst snd].
      * left. split; [reflexivity|]. right.
        change (Get TZ_HOME_URL
                  :: (if self_hide_attributes s then [HideAttributes] else [])
                     ++ [RestoreWatchlist])
          with ((Get TZ_HOME_URL
                   :: (if self_hide_attributes s then [HideAttributes] else []))
                ++ [RestoreWatchlist]).
        rewrite app_assoc. apply last_last.
      * right. reflexivity.
Qed.

(** X21: without a login form, [conn] reconnects by loading the page
    again: it returns [True] exactly when the portfolio shows at its first
    probe or at one of the 150 probes after the reload, and raises its
    exception otherwise. *)
Theorem conn_by_refresh (s : Session) :
  s_login_form s = false ->
  (fst (run (conn s)) = Done true <-> portfolio_shown s 0 151)
  /\ (fst (run (conn s)) = Failed ReconnectFailed
      <-> ~ portfolio_shown s 0 151).
Proof.
  intros Hform. unfold run.
  assert (Sh : portfolio_shown s 0 151 <->
               mem "Portfolio" (s_headings s 0) = true
               \/ portfolio_shown s 1 150).
  { unfold portfolio_shown. split.
    - intros (k & Hk & Hm). destruct (Nat.eq_dec k 0) as [->|Hne].
      + left. exact Hm.
      + right. exists k. split; [lia | exact Hm].
    - intros [Hm|(k & Hk & Hm)].
      + exists 0. split; [lia | exact Hm].
      + exists k. split; [lia | exact Hm]. }
  destruct (mem "Portfolio" (s_headings s 0)) eqn:E.
  - rewrite (conn_connected s E). cbn [fst]. split.
    + split; [intros _; apply Sh; left; reflexivity | reflexivity].
    + split; [discriminate|]. intros N. exfalso. apply N, Sh. left.
      reflexivity.
  - rewrite (conn_disconnected s E).
    destruct (reconnect_run s 1) as [(A & _)
                                    |(_ & before & p0 & b & p2 & _ & H0 & Hb & ->)].
    + rewrite Hform in A. discriminate A.
    + destruct (H0 Hform) as [-> _].
      destruct b; cbn [fst]; split.
      * split; [intros _; apply Sh; right; apply Hb; reflexivity
               | reflexivity].
      * split; [discriminate|]. intros N. exfalso. apply N, Sh. right.
        apply Hb. reflexivity.
      * split; [discriminate|]. intros H. apply Sh in H.
        destruct H as [H|H]; [discriminate H|]. apply Hb in H.
        discriminate H.
      * split; [|reflexivity]. intros _ H. apply Sh in H.
        destruct H as [H|H]; [discriminate H|]. apply Hb in H.
        discriminate H.
Qed.

Lemma conn_by_refresh_witness :
  fst (run (conn MoreSamples.slow_session)) = Done true
  /\ fst (run (conn MoreSamples.dead_session)) = Failed ReconnectFailed.
Proof.
  split.
  - apply (proj1 (conn_by_refresh MoreSamples.slow_session eq_refl)).
    exists 3. split; [lia | reflexivity].
  - apply (proj2 (conn_by_refresh MoreSamples.dead_session eq_refl)).
    intros (k & _ & H). discriminate H.
Defined.

(** X22: when the login form and everything [login] looks for are on the
    page, [conn] on a page that does not show the portfolio logs in and
    returns [True] whatever the probes show afterwards: the outcome of the
    wait inside [login] is not looked at. *)
Theorem conn_trusts_login (s : Session) :
  mem "Portfolio" (s_headings s 0) = false ->
  s_login_form s = true ->
  s_login_field s = true ->
  s_password_field s = true ->
  s_order_type_menu s = true ->
  run (conn s) =
    (Done true,
     [ OnPage (SendKeys (ById "login") (KStr (self_user_name s)) false);
       OnPage (SendKeys (ById "password") (KStr (self_password s)) true) ]
     ++ (if self_hide_attributes s then [HideAttributes] else [])
     ++ [ OnPage (SelectByIndex (ById "trading-order-select-type") 1);
          Get TZ_HOME_URL; DumpCookies; RestoreWatchlist ]).
Proof.
  intros E H1 H2 H3 H4. unfold run. rewrite (conn_disconnected s E).
  destruct (reconnect_run s 1) as [(_ & p1 & ->)|(A & _)].
  - reflexivity.
  - rewrite H1, H2, H3, H4 in A. discriminate A.
Qed.

Lemma conn_trusts_login_witness :
  fst (run (conn MoreSamples.login_session)) = Done true
  /\ ~ portfolio_shown MoreSamples.login_session 0 1000.
Proof.
  split.
  - rewrite (conn_trusts_login MoreSamples.login_session
               eq_refl eq_refl eq_refl eq_refl eq_refl).
    reflexivity.
  - intros (k & _ & H). discriminate H.
Defined.

(* ================================================================== *)
(** ** data *)

Lemma read_fields_all (field : string -> option float) (ids : list string) :
  (exists lst, read_fields field ids = (Return lst, [])
               /\ map Some lst = map field ids)
  \/ (read_fields field ids = (Raise BadFloatText, [])
      /\ exists id, In id ids /\ field id = None).
Proof.
  induction ids as [|id ids IH]; cbn [read_fields].
  - left. exists []. split; reflexivity.
  - destruct (field id) as [val|] eqn:E.
    + destruct IH as [(lst & -> & Hl)|(-> & id' & Hin & Hn)].
      * left. exists (val :: lst). split; [reflexivity|].
        cbn [map]. rewrite E, Hl. reflexivity.
      * right. split; [reflexivity|]. exists id'. split; [right|]; assumption.
    + right. split; [reflexivity|]. exists id. split; [left; reflexivity|].
      exact E.
Qed.

(** X23: when [load_symbol] finds the market closed, [data] returns the
    quote with its eight fields at zero, whatever the quote panel shows,
    having done nothing to the page but what [load_symbol] did. *)
Theorem data_market_closed
    (w : World) (field : string -> option float) (symbol : string) :
  result (load_symbol w symbol) = Return PyFalse ->
  data w field symbol =
    (Return {| q_open := 0; q_high := 0; q_low := 0; q_close := 0;
               q_volume := 0; q_last := 0; q_ask := 0; q_bid := 0 |},
     [type_symbol symbol]).
Proof.
  intros H. apply load_symbol_False in H. unfold data. rewrite H.
  reflexivity.
Qed.

Lemma data_market_closed_witness :
  data Samples.closed_page MoreSamples.quote_fields "aapl" =
    (Return {| q_open := 0; q_high := 0; q_low := 0; q_close := 0;
               q_volume := 0; q_last := 0; q_ask := 0; q_bid := 0 |},
     [type_symbol "aapl"]).
Proof.
  apply (data_market_closed Samples.closed_page MoreSamples.quote_fields "aapl").
  reflexivity.
Defined.

(** X24: when [load_symbol] returns [True], or the [None] of its exhausted
    loop, [data] reads the eight fields of the quote panel: it raises the [ValueError] of the conversion exactly when
    one of them does not read as a number, and otherwise returns them in
    the order open, high, low, close, volume, last, ask, bid. *)
Theorem data_reads_the_panel
    (w : World) (field : string -> option float) (symbol : string)
    (v : pybool) :
  result (load_symbol w symbol) = Return v ->
  v <> PyFalse ->
  (result (data w field symbol) = Raise BadFloatText <->
   exists id, In id element_ids /\ field id = None)
  /\ (forall q, result (data w field symbol) = Return q ->
        map field element_ids =
          map Some [ q_open q; q_high q; q_low q; q_close q;
                     q_volume q; q_last q; q_ask q; q_bid q ]).
Proof.
  intros Hload Hv. unfold data.
  destruct (load_symbol w symbol) as [o t]. cbn [result fst] in Hload.
  subst o.
  assert (D : bind (Return v, t)
                (fun loaded : pybool =>
                   match loaded with
                   | Some false =>
                       ret (Quote_make [0; 0; 0; 0; 0; 0; 0; 0]%float)
                   | _ => lst <- read_fields field element_ids ;;
                          ret (Quote_make lst)
                   end)
              = bind (Return v, t)
                  (fun _ => lst <- read_fields field element_ids ;;
                            ret (Quote_make lst))).
  { destruct v as [[|]|]; try reflexivity. exfalso. apply Hv. reflexivity. }
  rewrite D. clear D.
  destruct (read_fields_all field element_ids)
    as [(lst & E & Hl)|(E & id & Hin & Hn)].
  - unfold bind at 1 2. rewrite E. cbn [result fst ret]. split.
    + split; [discriminate|]. intros (id & Hin & Hn).
      assert (In None (map field element_ids))
        by (rewrite <- Hn; apply in_map, Hin).
      rewrite <- Hl in H. apply in_map_iff in H.
      destruct H as (x & Hx & _). discriminate Hx.
    + intros q [= <-]. rewrite <- Hl.
      destruct lst as [|a0 [|a1 [|a2 [|a3 [|a4 [|a5 [|a6 [|a7 [|a8 l]]]]]]]]];
        try discriminate Hl. reflexivity.
  - unfold bind at 1 2. rewrite E. cbn [result fst]. split.
    + split; [intros _; exists id; split; assumption | reflexivity].
    + intros q H. discriminate H.
Qed.

Lemma data_reads_the_panel_witness :
  result (data Samples.silent_page MoreSamples.empty_fields "aapl")
    = Raise BadFloatText
  /\ result (data Samples.open_page MoreSamples.quote_fields "aapl") =
       Return {| q_open := 187.25; q_high := 187.25; q_low := 187.25;
                 q_close := 187.25; q_volume := 1200300; q_last := 187.25;
                 q_ask := 187.25; q_bid := 187.25 |}.
Proof.
  split.
  - refine (proj2 (proj1 (data_reads_the_panel Samples.silent_page
                            MoreSamples.empty_fields "aapl" PyNone _ _)) _).
    + rewrite load_symbol_unfold.
      change (already_loaded Samples.silent_page "aapl") with false. cbn iota.
      cbn [result fst]. apply poll_ask_all_empty. intros j. reflexivity.
    + discriminate.
    + exists "trading-order-open". split; [left; reflexivity | reflexivity].
  - reflexivity.
Defined.
